(** * create-typed-env: the value-resolution algorithm of [createTypedEnv]

    A shallow embedding of [createTypedEnv] (src/env.ts of create-typed-env):
    the logger, the fallback walk [getFallbackValue], the resolver
    [getEnvValue], the writer [setEnvValue] and the two traps of the
    returned Proxy, followed by the properties of the resolution
    algorithm. *)

From Stdlib Require Import ZArith Lia Ascii.
From stdpp Require Import base option list strings gmap pretty.
From Equations Require Import Equations.

Local Open Scope string_scope.

(** ** JavaScript values

    The part of the JavaScript value universe that reaches the code: the
    configuration values ([fallback], [log]) and the value handed to the
    [set] trap, which is typed [any].  A function value stands for a
    fallback resolver [(key: string) => string]; it is modelled as a pure
    function of its key.  An object is the list of its own properties. *)

#[warnings="-register-all"]
Inductive jsval : Type :=
| JUndefined
| JString (s : string)
| JBoolean (b : bool)
| JNumber (z : Z)
| JFunction (f : string -> string)
| JObject (props : list (string * jsval)).

(** [typeof v] *)
Definition typeof (v : jsval) : string :=
  match v with
  | JUndefined => "undefined"
  | JString _ => "string"
  | JBoolean _ => "boolean"
  | JNumber _ => "number"
  | JFunction _ => "function"
  | JObject _ => "object"
  end.

(** ToBoolean: what [if (v)] and [!v] test. *)
Definition truthy (v : jsval) : bool :=
  match v with
  | JUndefined => false
  | JString s => negb (bool_decide (s = ""))
  | JBoolean b => b
  | JNumber z => negb (bool_decide (z = 0%Z))
  | JFunction _ => true
  | JObject _ => true
  end.

(** ToString, as a template literal [`${v}`] or a computed property key
    [o[v]] applies it.  The text of a function is its source, which the
    model does not carry; no path of the code renders a function.  An
    object is rendered as [Object.prototype.toString] renders it, which is
    what the code prints for an object without a [toString] of its own;
    a number is printed in decimal, as JavaScript prints an integer below
    [1e21]. *)
Definition to_string (v : jsval) : string :=
  match v with
  | JUndefined => "undefined"
  | JString s => s
  | JBoolean b => if b then "true" else "false"
  | JNumber z => pretty z
  | JFunction _ => "function"
  | JObject _ => "[object Object]"
  end.

(** [k in o] on the own properties of an object. *)
Fixpoint js_in (k : string) (props : list (string * jsval)) : bool :=
  match props with
  | [] => false
  | (k', _) :: rest => bool_decide (k' = k) || js_in k rest
  end.

(** [o[k]] on the own properties of an object: [undefined] when missing. *)
Fixpoint js_get (props : list (string * jsval)) (k : string) : jsval :=
  match props with
  | [] => JUndefined
  | (k', v) :: rest => if bool_decide (k' = k) then v else js_get rest k
  end.

(** [v[k]] for a value already known to be an object. *)
Definition js_prop (v : jsval) (k : string) : jsval :=
  match v with
  | JObject props => js_get props k
  | _ => JUndefined
  end.

(** [k in v] for a value already known to be an object. *)
Definition js_has (k : string) (v : jsval) : bool :=
  match v with
  | JObject props => js_in k props
  | _ => false
  end.

(** Number of constructors of a value: the measure of the fallback walk. *)
Fixpoint jsval_size (v : jsval) : nat :=
  match v with
  | JObject props =>
      S ((fix props_size (l : list (string * jsval)) : nat :=
            match l with
            | [] => 0
            | (_, v') :: rest => jsval_size v' + props_size rest
            end) props)
  | _ => 0
  end.

(** ** The world: environment stores and the console

    [process.env] is the process-wide store, with case-sensitive names
    as on POSIX.  A caller may hand its own object to [createTypedEnv] as
    [options.env]; the handle keeps a reference to it, never a copy, so
    both objects live in the world and the handle holds an [env_ref].  A
    store is the finite map of its own entries. *)

Record world : Type := World {
  process_env : gmap string string;
  supplied_env : gmap string string;
  console : list string
}.

Inductive env_ref : Type := ProcessEnv | SuppliedEnv.

Definition deref (r : env_ref) (w : world) : gmap string string :=
  match r with
  | ProcessEnv => process_env w
  | SuppliedEnv => supplied_env w
  end.

(** A string as [process.env] hands it to the operating system, a C
    string: cut at the first NUL. *)
Fixpoint c_string (s : string) : string :=
  match s with
  | EmptyString => EmptyString
  | String c rest =>
      if Ascii.eqb c Ascii.zero then EmptyString else String c (c_string rest)
  end.

(** What a store keeps of [r[k] = v].  [process.env] drops a variable
    with the empty name and keeps the value as a C string; a supplied
    store is an ordinary object, on which [__proto__] is the inherited
    setter, which ignores a string.  Names with a NUL or an [=] in
    [process.env] are outside the model. *)
Definition stored_as (r : env_ref) (k v : string) : option string :=
  match r with
  | ProcessEnv => if bool_decide (k = "") then None else Some (c_string v)
  | SuppliedEnv => if bool_decide (k = "__proto__") then None else Some v
  end.

Definition assign (r : env_ref) (k v : string) (w : world) : world :=
  match stored_as r k v with
  | None => w
  | Some v' =>
      match r with
      | ProcessEnv => World (<[k := v']> (process_env w)) (supplied_env w) (console w)
      | SuppliedEnv => World (process_env w) (<[k := v']> (supplied_env w)) (console w)
      end
  end.

(** ** Computations: state passing with exceptions

    A JavaScript computation runs in a world and completes normally with
    a value or abruptly with a thrown [Error], whose message is kept. *)

Inductive completion (A : Type) : Type :=
| Normal (a : A)
| Throw (message : string).
Arguments Normal {A} a.
Arguments Throw {A} message.

Definition JS (A : Type) : Type := world -> completion A * world.

Definition ret {A} (a : A) : JS A := fun w => (Normal a, w).

Definition throw {A} (message : string) : JS A := fun w => (Throw message, w).

Definition bind {A B} (m : JS A) (k : A -> JS B) : JS B :=
  fun w =>
    match m w with
    | (Normal a, w') => k a w'
    | (Throw e, w') => (Throw e, w')
    end.

Notation "'let*' x ':=' m 'in' k" := (bind m (fun x => k))
  (at level 10, x name, m at level 100, k at level 200).

(** [k in r] followed by [r[k]], as one read, on the entries of the
    store: the stored string when the key is present.  What a store
    inherits from [Object.prototype] is not among its entries; the
    properties that speak of an absent key are stated for keys that are no
    inherited names ([plain_key] below). *)
Definition env_lookup (r : env_ref) (k : string) : JS (option string) :=
  fun w => (Normal (deref r w !! k), w).

(** [r[k]] on a store: the stored string, or [undefined]. *)
Definition env_get (r : env_ref) (k : string) : JS jsval :=
  fun w =>
    (Normal (match deref r w !! k with Some s => JString s | None => JUndefined end), w).

(** [r[k] = v] *)
Definition env_set (r : env_ref) (k v : string) : JS unit :=
  fun w => (Normal tt, assign r k v w).

(** [console.warn(message)]: the log sink, one entry per call. *)
Definition console_warn (message : string) : JS unit :=
  fun w => (Normal tt, World (process_env w) (supplied_env w) (console w ++ [message])).

(** ** The fallback walk

    [getFallbackValue] of [createTypedEnv].  It closes over nothing but
    the global [process.env], whose [NODE_ENV] selects the entry of an
    environment-specific fallback [{ env: { ... } }].  The recursion
    follows property reads, so it is by the size of [fallback]. *)

Equations? getFallbackValue (fallback : jsval) (key : string) : JS string
  by wf (jsval_size fallback) lt :=
getFallbackValue (JString s) key := ret s;
getFallbackValue (JFunction f) key := ret (f key);
getFallbackValue (JObject props) key :=
  if js_in "env" props && bool_decide (typeof (js_get props "env") = "object") then
    let* NODE_ENV := env_get ProcessEnv "NODE_ENV" in
    let fallbackEnv := js_prop (js_get props "env") (to_string NODE_ENV) in
    getFallbackValue fallbackEnv key
  else if js_in key props then
    let fallbackValue := js_get props key in
    getFallbackValue fallbackValue key
  else
    throw ("Invalid fallback value: " +:+ to_string (JObject props));
getFallbackValue fallback key :=
  throw ("Invalid fallback value: " +:+ to_string fallback).
Proof.
  all: assert (Hget : forall l k, jsval_size (js_get l k) < jsval_size (JObject l))
    by (intros l k; induction l as [|[k' v] rest IH]; simpl in *;
        [lia | case_bool_decide; lia]).
  - subst fallbackEnv. pose proof (Hget props "env") as Henv. simpl in Henv.
    destruct (js_get props "env") as [| | | | |envs]; simpl in *; try lia.
    pose proof (Hget envs (to_string NODE_ENV)) as Hmode. simpl in Hmode. lia.
  - subst fallbackValue. exact (Hget props key).
Qed.

(** ** The closure of [createTypedEnv]

    [logger], [getEnvValue], [setEnvValue] and the Proxy traps close over
    the destructured options [lazy], [fallback], [log] and [env]. *)

(** What a property read on the Proxy yields: the value itself in eager
    mode, the getter and setter function [(value?: string) => string] in
    lazy mode. *)
Inductive property : Type :=
| PValue (s : string)
| PAccessor (f : option string -> JS string).

Section closure.
Variable lazy : bool.
Variable fallback : jsval.
Variable log : jsval.
Variable env : env_ref.

Definition logger (message : string) : JS unit :=
  let* nodeEnv := env_get env "NODE_ENV" in
  if negb (truthy log) then ret tt
  else if bool_decide (typeof log = "boolean") then
    console_warn message
  else if bool_decide (typeof log = "object")
          && truthy nodeEnv
          && js_has (to_string nodeEnv) log
          && truthy (js_prop log (to_string nodeEnv)) then
    console_warn message
  else ret tt.

Definition getEnvValue (key : string) : JS string :=
  let* stored := env_lookup env key in
  match stored with
  | Some value => ret value
  | None =>
      if negb (truthy fallback) then
        let* _ := logger ("Environment variable " +:+ key +:+ " not found") in
        throw ("Environment variable " +:+ key +:+ " not found")
      else
        let* fallbackValue := getFallbackValue fallback key in
        if truthy (JString fallbackValue) then
          let* _ := logger ("Environment variable " +:+ key
                            +:+ " not found, using fallback: " +:+ fallbackValue) in
          ret fallbackValue
        else
          let* _ := logger ("Invalid fallback value for environment variable " +:+ key) in
          throw ("Invalid fallback value for environment variable " +:+ key)
  end.

Definition setEnvValue (key value : string) : JS unit :=
  env_set env key value.

(** The function a lazy property read returns. *)
Definition accessor (prop : string) (value : option string) : JS string :=
  let* _ := match value with
            | Some value => setEnvValue prop value
            | None => ret tt
            end in
  getEnvValue prop.

(** The [get] trap. *)
Definition get (prop : string) : JS property :=
  if lazy then ret (PAccessor (accessor prop))
  else
    let* value := getEnvValue prop in
    ret (PValue value).

(** The [set] trap. *)
Definition set (prop : string) (value : jsval) : JS bool :=
  if negb lazy then
    if negb (bool_decide (typeof value = "string")) then
      throw ("Environment variables must be strings. Attempted to set "
             +:+ prop +:+ " to non-string.")
    else
      let* _ := setEnvValue prop (to_string value) in
      ret true
  else
    throw ("Attempted to set lazy environment variable " +:+ prop
           +:+ " via assignment. Use the function call env." +:+ prop
           +:+ "('value') instead.").
End closure.

(** The options object; an absent [fallback] or [log] is [undefined], an
    absent [lazy] is falsy, an absent [env] defaults to [process.env]. *)
Record CreateEnvOptions : Type := {
  opt_env : option env_ref;
  opt_lazy : bool;
  opt_fallback : jsval;
  opt_log : jsval
}.

(** The returned Proxy, as its handler. *)
Record TypedEnv : Type := {
  proxy_get : string -> JS property;
  proxy_set : string -> jsval -> JS bool
}.

Definition createTypedEnv (options : CreateEnvOptions) : TypedEnv :=
  let lazy := opt_lazy options in
  let fallback := opt_fallback options in
  let log := opt_log options in
  let env := default ProcessEnv (opt_env options) in
  {| proxy_get := get lazy fallback log env;
     proxy_set := set lazy env |}.

(** [Record<string, string>]: every property holds a string. *)
Definition is_Record (props : list (string * jsval)) : bool :=
  forallb (fun p => bool_decide (typeof (snd p) = "string")) props.

(** * The previous revision: [createEnv]

    [createEnv] of src/env.ts, in its revision with the [env] option, is
    what [createTypedEnv] was before function fallbacks: [logger],
    [setEnvValue] and the [set] trap have the same text, and [getEnvValue]
    resolves the fallback in line, without a recursive walk. *)

Module CreateEnv.

Section closure.
(** The message of the [TypeError] the engine raises for [key in v] when
    [v] is not an object; the text is the engine's, not the source's. *)
Variable TypeError_in : string -> jsval -> string.
Variable lazy : bool.
Variable fallback : jsval.
Variable log : jsval.
Variable env : env_ref.

(** [key in v]: among the own properties of an object; any value that is
    neither an object nor a function makes the engine throw.  The declared
    type of a fallback has no function in this revision, and the model
    keeps none of the members of one ([name], [length], ...). *)
Definition in_operator (key : string) (v : jsval) : JS bool :=
  match v with
  | JObject props => ret (js_in key props)
  | JFunction _ => ret false
  | _ => throw (TypeError_in key v)
  end.

Definition getEnvValue (key : string) : JS string :=
  let invalid : JS string :=
    let* _ := logger log env ("Invalid fallback value for environment variable " +:+ key) in
    throw ("Invalid fallback value for environment variable " +:+ key) in
  let* stored := env_lookup env key in
  match stored with
  | Some value => ret value
  | None =>
      if negb (truthy fallback) then
        let* _ := logger log env ("Environment variable " +:+ key +:+ " not found") in
        throw ("Environment variable " +:+ key +:+ " not found")
      else if bool_decide (typeof fallback = "string") then
        let* _ := logger log env ("Environment variable " +:+ key
                                  +:+ " not found, using fallback '"
                                  +:+ to_string fallback +:+ "'") in
        ret (to_string fallback)
      else if bool_decide (typeof fallback = "object") then
        let* NODE_ENV := env_get ProcessEnv "NODE_ENV" in
        let fallbackEnv :=
          if js_has "env" fallback
             && bool_decide (typeof (js_prop fallback "env") = "object")
          then js_prop (js_prop fallback "env") (to_string NODE_ENV)
          else fallback in
        if bool_decide (typeof fallbackEnv = "string") then
          let* _ := logger log env ("Environment variable " +:+ key
                                    +:+ " not found, using fallback '"
                                    +:+ to_string fallbackEnv +:+ "'") in
          ret (to_string fallbackEnv)
        else
          let* present := in_operator key fallbackEnv in
          if present && bool_decide (typeof (js_prop fallbackEnv key) = "string") then
            let* _ := logger log env ("Environment variable " +:+ key
                                      +:+ " not found, using fallback '"
                                      +:+ to_string (js_prop fallbackEnv key) +:+ "'") in
            ret (to_string (js_prop fallbackEnv key))
          else invalid
      else invalid
  end.

(** The function a lazy property read returns. *)
Definition accessor (prop : string) (value : option string) : JS string :=
  let* _ := match value with
            | Some value => setEnvValue env prop value
            | None => ret tt
            end in
  getEnvValue prop.

(** The [get] trap. *)
Definition get (prop : string) : JS property :=
  if lazy then ret (PAccessor (accessor prop))
  else
    let* value := getEnvValue prop in
    ret (PValue value).
End closure.

Definition createEnv (TypeError_in : string -> jsval -> string)
    (options : CreateEnvOptions) : TypedEnv :=
  let lazy := opt_lazy options in
  let fallback := opt_fallback options in
  let log := opt_log options in
  let env := default ProcessEnv (opt_env options) in
  {| proxy_get := get TypeError_in lazy fallback log env;
     proxy_set := set lazy env |}.

(** The declared type of a fallback in this revision:
    [string | Record<string, string> | { env: NodeEnvs<string | Record<string, string>> }]. *)
Definition is_Value (v : jsval) : bool :=
  match v with
  | JString _ => true
  | JObject props => is_Record props
  | _ => false
  end.

Definition is_NodeEnvs (envs : list (string * jsval)) : bool :=
  forallb (fun p =>
             bool_decide (fst p ∈ ["development"; "test"; "production"])
             && match snd p with
                | JUndefined => true
                | v => is_Value v
                end) envs.

Definition is_Fallback (v : jsval) : bool :=
  is_Value v
  || match v with
     | JObject [(k, JObject envs)] => bool_decide (k = "env") && is_NodeEnvs envs
     | _ => false
     end.

End CreateEnv.

(** * The first revision: [createEnv] on [process.env]

    The first [createEnv] of src/env.ts has no [env] option: it reads and
    writes [process.env], its [logger] takes the mode from
    [process.env.NODE_ENV] without testing that it is set, and its
    [getEnvValue] returns a mapping's entry as it is and ends every miss in
    the not-found error. *)

Module CreateEnv0.

(** What a property read on the Proxy yields in this revision: the value
    as [getEnvValue] returns it, or the accessor. *)
Inductive property : Type :=
| PValue (v : jsval)
| PAccessor (f : option string -> JS jsval).

Section closure.
Variable TypeError_in : string -> jsval -> string.
Variable lazy : bool.
Variable fallback : jsval.
Variable log : jsval.

Definition logger (message : string) : JS unit :=
  if negb (truthy log) then ret tt
  else if bool_decide (typeof log = "boolean") then
    console_warn message
  else
    let* NODE_ENV := env_get ProcessEnv "NODE_ENV" in
    if bool_decide (typeof log = "object")
       && js_has (to_string NODE_ENV) log
       && truthy (js_prop log (to_string NODE_ENV)) then
      console_warn message
    else ret tt.

Definition getEnvValue (key : string) : JS jsval :=
  let notFound : JS jsval :=
    let* _ := logger ("Environment variable " +:+ key +:+ " not found") in
    throw ("Environment variable " +:+ key +:+ " not found") in
  let* stored := env_lookup ProcessEnv key in
  match stored with
  | Some value => ret (JString value)
  | None =>
      if truthy fallback then
        if bool_decide (typeof fallback = "string") then
          let* _ := logger ("Environment variable " +:+ key
                            +:+ " not found, using fallback '"
                            +:+ to_string fallback +:+ "'") in
          ret fallback
        else if bool_decide (typeof fallback = "object") then
          let* NODE_ENV := env_get ProcessEnv "NODE_ENV" in
          let env :=
            if js_has "env" fallback
               && bool_decide (typeof (js_prop fallback "env") = "object")
            then js_prop (js_prop fallback "env") (to_string NODE_ENV)
            else fallback in
          if bool_decide (typeof env = "string") then
            let* _ := logger ("Environment variable " +:+ key
                              +:+ " not found, using fallback '"
                              +:+ to_string env +:+ "'") in
            ret env
          else
            let* present := CreateEnv.in_operator TypeError_in key env in
            if present then
              let* _ := logger ("Environment variable " +:+ key
                                +:+ " not found, using fallback '"
                                +:+ to_string (js_prop env key) +:+ "'") in
              ret (js_prop env key)
            else notFound
        else notFound
      else notFound
  end.

Definition setEnvValue (key value : string) : JS unit :=
  env_set ProcessEnv key value.

(** The function a lazy property read returns. *)
Definition accessor (prop : string) (value : option string) : JS jsval :=
  let* _ := match value with
            | Some value => setEnvValue prop value
            | None => ret tt
            end in
  getEnvValue prop.

(** The [get] trap. *)
Definition get (prop : string) : JS property :=
  if lazy then ret (PAccessor (accessor prop))
  else
    let* value := getEnvValue prop in
    ret (PValue value).
End closure.

End CreateEnv0.

(** * Vocabulary of the properties *)

(** ** The messages of the failures

    Every failure is a plain [Error]; its message tells the kinds apart. *)

Definition NotFound (key : string) : string :=
  "Environment variable " +:+ key +:+ " not found".

Definition InvalidFallback (key : string) : string :=
  "Invalid fallback value for environment variable " +:+ key.

Definition InvalidFallbackValue (fallback : jsval) : string :=
  "Invalid fallback value: " +:+ to_string fallback.

Definition TypeCheck (prop : string) : string :=
  "Environment variables must be strings. Attempted to set "
  +:+ prop +:+ " to non-string.".

Definition InvalidAccessMode (prop : string) : string :=
  "Attempted to set lazy environment variable " +:+ prop
  +:+ " via assignment. Use the function call env." +:+ prop
  +:+ "('value') instead.".


(** ** Names and values the model covers

    The code tests and reads properties with [in] and [[]], which see what
    an ordinary object inherits from [Object.prototype]; the embedding
    keeps the own properties of an object only.  The two agree on every
    name that is not one of the inherited ones, and the properties below
    are stated for such names. *)

(** The property names of [Object.prototype]. *)
Definition Object_prototype_names : list string :=
  ["constructor"; "__defineGetter__"; "__defineSetter__"; "hasOwnProperty";
   "__lookupGetter__"; "__lookupSetter__"; "isPrototypeOf"; "propertyIsEnumerable";
   "toString"; "valueOf"; "__proto__"; "toLocaleString"].

(** [k] names a member every ordinary object inherits. *)
Definition inherited (k : string) : bool :=
  existsb (String.eqb k) Object_prototype_names.

(** [s] contains the character [c]. *)
Fixpoint has_char (c : Ascii.ascii) (s : string) : bool :=
  match s with
  | EmptyString => false
  | String c' rest => Ascii.eqb c' c || has_char c rest
  end.

(** A key on which the own properties of a store decide [key in env]:
    not an inherited name, and without a NUL, at which [process.env] would
    cut the name it looks up. *)
Definition plain_key (k : string) : bool :=
  negb (inherited k) && negb (has_char Ascii.zero k).

(** Every object of a value has the rendering of [Object.prototype]:
    none has a [toString] of its own, so [`${o}`] is [[object Object]]. *)
Fixpoint default_rendering (v : jsval) : bool :=
  match v with
  | JObject props =>
      negb (js_in "toString" props)
      && (fix all (l : list (string * jsval)) : bool :=
            match l with
            | [] => true
            | (_, v') :: rest => default_rendering v' && all rest
            end) props
  | _ => true
  end.

(** A key and a value a store keeps as they are: never [__proto__]; in
    [process.env] the name is not empty and has neither a NUL nor an [=],
    and the value has no NUL. *)
Definition storable (r : env_ref) (k v : string) : bool :=
  negb (String.eqb k "__proto__")
  && match r with
     | ProcessEnv =>
         negb (String.eqb k "")
         && negb (has_char Ascii.zero k)
         && negb (has_char "="%char k)
         && negb (has_char Ascii.zero v)
     | SuppliedEnv => true
     end.

(** The two stores of a world, without the console. *)
Definition stores (w : world) : gmap string string * gmap string string :=
  (process_env w, supplied_env w).

(** The world after one more [console.warn]. *)
Definition warned (message : string) (w : world) : world :=
  World (process_env w) (supplied_env w) (console w ++ [message]).

(** The [NODE_ENV] field of a store, as [r.NODE_ENV] reads it. *)
Definition mode_of (r : env_ref) (w : world) : jsval :=
  match deref r w !! "NODE_ENV" with
  | Some s => JString s
  | None => JUndefined
  end.

(** The mode of a store, as a property key, does not name an inherited
    member: on it the own properties of a mode mapping decide
    [mapping[mode]] and [mode in mapping]. *)
Definition plain_mode (r : env_ref) (w : world) : bool :=
  negb (inherited (to_string (mode_of r w))).

(** Whether [logger] reaches [console.warn] in a world. *)
Definition log_enabled (log : jsval) (env : env_ref) (w : world) : bool :=
  match log with
  | JBoolean b => b
  | JObject props =>
      truthy (mode_of env w)
      && js_in (to_string (mode_of env w)) props
      && truthy (js_get props (to_string (mode_of env w)))
  | _ => false
  end.

(** The world after [logger message]. *)
Definition logged (log : jsval) (env : env_ref) (message : string) (w : world) : world :=
  if log_enabled log env w then warned message w else w.

(** The per-mode entries of an environment-specific fallback
    [{ env: { development: ..., test: ..., production: ... } }]: an
    object with an [env] property that is itself an object. *)
Definition env_entries (fallback : jsval) : option (list (string * jsval)) :=
  match fallback with
  | JObject props =>
      if js_in "env" props then
        match js_get props "env" with
        | JObject envs => Some envs
        | _ => None
        end
      else None
  | _ => None
  end.

(** The same options under the other discipline. *)
Definition with_lazy (lazy : bool) (options : CreateEnvOptions) : CreateEnvOptions :=
  {| opt_env := opt_env options; opt_lazy := lazy;
     opt_fallback := opt_fallback options; opt_log := opt_log options |}.

(** ** The declared types of a fallback

    [FallbackValue], [NodeEnvs<FallbackValue>] and [Fallback] as the
    source declares them, as predicates on values, and the lookup these
    types describe: at most one mode layer over a string, a function or a
    per-key mapping. *)

(** [FallbackValue = string | Record<string, string> | ((key: string) => string)] *)
Definition is_FallbackValue (v : jsval) : bool :=
  match v with
  | JString _ => true
  | JFunction _ => true
  | JObject props => is_Record props
  | _ => false
  end.

(** [NodeEnvs<FallbackValue>]: optional [development], [test] and
    [production] properties. *)
Definition is_NodeEnvs (envs : list (string * jsval)) : bool :=
  forallb (fun p =>
             bool_decide (fst p ∈ ["development"; "test"; "production"])
             && match snd p with
                | JUndefined => true
                | v => is_FallbackValue v
                end) envs.

(** [Fallback = FallbackValue | { env: NodeEnvs<FallbackValue> }] *)
Definition is_Fallback (v : jsval) : bool :=
  is_FallbackValue v
  || match v with
     | JObject [(k, JObject envs)] => bool_decide (k = "env") && is_NodeEnvs envs
     | _ => false
     end.

(** What a [FallbackValue], or a missing one, yields for a key. *)
Definition resolve_value (v : jsval) (key : string) : completion string :=
  match v with
  | JString s => Normal s
  | JFunction fn => Normal (fn key)
  | JObject props =>
      if js_in key props then Normal (to_string (js_get props key))
      else Throw "Invalid fallback value: [object Object]"
  | _ => Throw "Invalid fallback value: undefined"
  end.

(** What a [Fallback] yields for a key in a mode. *)
Definition resolve_fallback (fallback : jsval) (key : string) (mode : jsval)
  : completion string :=
  match env_entries fallback with
  | Some envs => resolve_value (js_get envs (to_string mode)) key
  | None => resolve_value fallback key
  end.

(** * Sample configurations

    The concrete handles and worlds the properties are exercised on; most
    come from the test suite and the README. *)

(** A world with nothing in either store and a silent console. *)
Definition empty_world : world := World ∅ ∅ [].

(** A handle on a supplied store whose [EMPTY_VAR] is the empty string,
    with a fallback and logging configured. *)
Definition hit_options : CreateEnvOptions :=
  {| opt_env := Some SuppliedEnv; opt_lazy := false;
     opt_fallback := JString "fallback_value"; opt_log := JBoolean true |}.

Definition hit_world : world := World ∅ {["EMPTY_VAR" := ""]} [].



(** The default options, and the default options in lazy mode. *)
Definition eager_options : CreateEnvOptions :=
  {| opt_env := None; opt_lazy := false;
     opt_fallback := JUndefined; opt_log := JUndefined |}.

Definition lazy_options : CreateEnvOptions :=
  {| opt_env := None; opt_lazy := true;
     opt_fallback := JUndefined; opt_log := JUndefined |}.

(** The environment-specific string fallback of the test suite. *)
Definition mode_fallback : jsval :=
  JObject [("env", JObject [("development", JString "dev_fallback");
                            ("test", JString "test_fallback");
                            ("production", JString "prod_fallback")])].

(** A world whose [process.env] holds the given mode and nothing else. *)
Definition mode_world (mode : string) : world :=
  World {["NODE_ENV" := mode]} ∅ [].

(** A handle on a supplied store with the environment-specific fallback,
    in a world whose [process.env] says [development] while the supplied
    store carries a mode of its own. *)
Definition supplied_options : CreateEnvOptions :=
  {| opt_env := Some SuppliedEnv; opt_lazy := false;
     opt_fallback := mode_fallback; opt_log := JUndefined |}.

Definition supplied_world (mode : string) : world :=
  World {["NODE_ENV" := "development"]} {["NODE_ENV" := mode]} [].

(** The per-key mapping of the README: a fallback for [PORT] only. *)
Definition port_fallback : jsval := JObject [("PORT", JString "3000")].

(** The options of a handle on a given store, with everything else
    absent but the discipline. *)
Definition options_on (env : env_ref) (lazy : bool) : CreateEnvOptions :=
  {| opt_env := Some env; opt_lazy := lazy;
     opt_fallback := JUndefined; opt_log := JUndefined |}.

(** The mode-scoped log policy of the test suite: on in development only. *)
Definition dev_log : jsval :=
  JObject [("development", JBoolean true); ("test", JBoolean false);
           ("production", JBoolean false)].

(** The environment-specific object fallback of the test suite. *)
Definition mode_object_fallback : jsval :=
  JObject [("env", JObject [("development", JObject [("MISSING_VAR", JString "dev_fallback")]);
                            ("test", JObject [("MISSING_VAR", JString "test_fallback")]);
                            ("production", JObject [("MISSING_VAR", JString "prod_fallback")])])].


(** * Properties *)

Ltac run :=
  unfold bind, ret, throw, env_lookup, env_get, env_set, console_warn in *;
  simpl in *.

(** ** The logger *)

Lemma logger_run log env message w :
  logger log env message w
  = (Normal tt, if log_enabled log env w then warned message w else w).
Proof.
  unfold logger, log_enabled, mode_of. run.
  destruct log as [| s | [] | z | f | props]; simpl; try reflexivity.
  - destruct (negb (bool_decide (s = ""))); reflexivity.
  - destruct (negb (bool_decide (z = 0%Z))); reflexivity.
  - destruct (deref env w !! "NODE_ENV") as [m|]; simpl; [|reflexivity].
    destruct (negb (bool_decide (m = ""))); simpl; [|reflexivity].
    destruct (js_in m props); simpl; [|reflexivity].
    destruct (truthy (js_get props m)); reflexivity.
Qed.

(** ** The fallback walk reads, and never writes *)

Lemma getFallbackValue_world fallback key w :
  snd (getFallbackValue fallback key w) = w.
Proof.
  revert w. funelim (getFallbackValue fallback key); intros w; simp getFallbackValue;
    try reflexivity.
  destruct (js_in "env" props && bool_decide (typeof (js_get props "env") = "object")).
  - run. auto.
  - destruct (js_in key props); [auto | reflexivity].
Qed.

Lemma getFallbackValue_process_env fallback key w1 w2 :
  process_env w1 = process_env w2 ->
  fst (getFallbackValue fallback key w1) = fst (getFallbackValue fallback key w2).
Proof.
  intros Hpe. funelim (getFallbackValue fallback key); simp getFallbackValue;
    try reflexivity.
  destruct (js_in "env" props && bool_decide (typeof (js_get props "env") = "object")).
  - run. rewrite Hpe. auto.
  - destruct (js_in key props); [auto | reflexivity].
Qed.

(** ** The resolver, case by case *)

Lemma getEnvValue_hit fallback log env key value w :
  deref env w !! key = Some value ->
  getEnvValue fallback log env key w = (Normal value, w).
Proof. intros Hin. unfold getEnvValue. run. rewrite Hin. reflexivity. Qed.

Lemma getEnvValue_miss fallback log env key w :
  deref env w !! key = None ->
  getEnvValue fallback log env key w =
    if negb (truthy fallback) then
      (Throw (NotFound key), logged log env (NotFound key) w)
    else
      match fst (getFallbackValue fallback key w) with
      | Normal fallbackValue =>
          if truthy (JString fallbackValue) then
            (Normal fallbackValue,
             logged log env ("Environment variable " +:+ key
                             +:+ " not found, using fallback: " +:+ fallbackValue) w)
          else
            (Throw (InvalidFallback key), logged log env (InvalidFallback key) w)
      | Throw e => (Throw e, w)
      end.
Proof.
  intros Hout. unfold getEnvValue, logged. run. rewrite Hout.
  destruct (negb (truthy fallback)).
  - rewrite logger_run. reflexivity.
  - pose proof (getFallbackValue_world fallback key w) as Hw.
    destruct (getFallbackValue fallback key w) as [[s|e] w']; simpl in *; subst w';
      [|reflexivity].
    destruct (negb (bool_decide (s = ""))); rewrite logger_run; reflexivity.
Qed.

Lemma getEnvValue_stores fallback log env key w :
  stores (snd (getEnvValue fallback log env key w)) = stores w.
Proof.
  destruct (deref env w !! key) as [value|] eqn:Hk.
  - rewrite (getEnvValue_hit _ _ _ _ _ _ Hk). reflexivity.
  - rewrite (getEnvValue_miss _ _ _ _ _ Hk). unfold logged.
    destruct (negb (truthy fallback)); [destruct (log_enabled log env w); reflexivity|].
    destruct (fst (getFallbackValue fallback key w)) as [s|e]; [|reflexivity].
    destruct (truthy (JString s)); destruct (log_enabled log env w); reflexivity.
Qed.

Lemma truthy_nonempty s : s <> "" -> truthy (JString s) = true.
Proof. intros Hs. simpl. rewrite bool_decide_eq_false_2; [reflexivity | exact Hs]. Qed.

(** ** Reads through the Proxy *)

Lemma get_eager fallback log env prop w :
  get false fallback log env prop w =
    match getEnvValue fallback log env prop w with
    | (Normal value, w') => (Normal (PValue value), w')
    | (Throw e, w') => (Throw e, w')
    end.
Proof. reflexivity. Qed.

Lemma accessor_read fallback log env prop w :
  accessor fallback log env prop None w = getEnvValue fallback log env prop w.
Proof. reflexivity. Qed.

Lemma accessor_write fallback log env prop value w :
  accessor fallback log env prop (Some value) w
  = getEnvValue fallback log env prop (assign env prop value w).
Proof. reflexivity. Qed.

Lemma c_string_id v : has_char Ascii.zero v = false -> c_string v = v.
Proof.
  induction v as [|c rest IH]; simpl; [reflexivity|].
  destruct (Ascii.eqb c Ascii.zero); simpl; [discriminate|].
  intros Hrest. rewrite (IH Hrest). reflexivity.
Qed.

Lemma storable_stored_as env key value :
  storable env key value = true -> stored_as env key value = Some value.
Proof.
  unfold storable, stored_as. intros Hst.
  apply andb_true_iff in Hst as [Hproto Hst].
  apply negb_true_iff, String.eqb_neq in Hproto.
  destruct env.
  - apply andb_true_iff in Hst as [Hst Hvalue].
    apply andb_true_iff in Hst as [Hst _].
    apply andb_true_iff in Hst as [Hempty _].
    apply negb_true_iff, String.eqb_neq in Hempty.
    apply negb_true_iff in Hvalue.
    rewrite bool_decide_eq_false_2 by exact Hempty.
    rewrite (c_string_id _ Hvalue). reflexivity.
  - rewrite bool_decide_eq_false_2 by exact Hproto. reflexivity.
Qed.

Lemma assign_storable env key value w :
  storable env key value = true ->
  assign env key value w =
    match env with
    | ProcessEnv => World (<[key := value]> (process_env w)) (supplied_env w) (console w)
    | SuppliedEnv => World (process_env w) (<[key := value]> (supplied_env w)) (console w)
    end.
Proof. intros Hst. unfold assign. rewrite (storable_stored_as _ _ _ Hst). reflexivity. Qed.

Lemma deref_assign env key value w :
  storable env key value = true ->
  deref env (assign env key value w) !! key = Some value.
Proof.
  intros Hst. rewrite (assign_storable _ _ _ _ Hst).
  destruct env; simpl; apply lookup_insert_eq.
Qed.

(** C2. For every key present in the Environment Store, also one storing
    the empty string, an eager read returns exactly the stored string and
    leaves the whole world as it was, the console included: the log sink is
    not invoked, and the outcome is the same for every fallback and log
    configuration, so neither is consulted. *)
Theorem C2_hit_precedence (options : CreateEnvOptions) (key value : string) (w : world) :
  opt_lazy options = false ->
  deref (default ProcessEnv (opt_env options)) w !! key = Some value ->
  proxy_get (createTypedEnv options) key w = (Normal (PValue value), w).
Proof.
  intros Hlazy Hin. simpl. rewrite Hlazy, get_eager.
  rewrite (getEnvValue_hit _ _ _ _ _ _ Hin). reflexivity.
Qed.

Lemma C2_hit_precedence_witness :
  opt_lazy hit_options = false /\
  deref (default ProcessEnv (opt_env hit_options)) hit_world !! "EMPTY_VAR" = Some "" /\
  proxy_get (createTypedEnv hit_options) "EMPTY_VAR" hit_world
  = (Normal (PValue ""), hit_world).
Proof.
  assert (Hin : deref (default ProcessEnv (opt_env hit_options)) hit_world !! "EMPTY_VAR"
                = Some "") by reflexivity.
  split; [reflexivity | split; [exact Hin |]].
  exact (C2_hit_precedence hit_options "EMPTY_VAR" "" hit_world eq_refl Hin).
Defined.

(** ** Literal and function fallbacks *)









(** ** Writes *)

(** C7. An eager write of a value that is not a string fails with the
    type-check error before anything is assigned: the world after the
    failure is the world before it, so the key keeps its prior value, or
    stays absent. *)
Theorem C7_non_string_write_rejected (options : CreateEnvOptions) (prop : string)
    (value : jsval) (w : world) :
  opt_lazy options = false ->
  typeof value <> "string" ->
  proxy_set (createTypedEnv options) prop value w = (Throw (TypeCheck prop), w).
Proof.
  intros Hlazy Htype. simpl. unfold set. rewrite Hlazy. simpl.
  rewrite bool_decide_eq_false_2 by exact Htype. reflexivity.
Qed.

Lemma C7_non_string_write_rejected_witness :
  opt_lazy eager_options = false /\
  typeof (JNumber 123) <> "string" /\
  proxy_set (createTypedEnv eager_options) "NEW_VAR" (JNumber 123) empty_world
  = (Throw (TypeCheck "NEW_VAR"), empty_world).
Proof.
  assert (Htype : typeof (JNumber 123) <> "string") by discriminate.
  split; [reflexivity | split; [exact Htype |]].
  exact (C7_non_string_write_rejected eager_options "NEW_VAR" (JNumber 123) empty_world
           eq_refl Htype).
Defined.

(** C8, as the code has it. Write then read, for a key and a string the
    store keeps as they are (never [__proto__]; in [process.env] a name
    that is not empty and has neither a NUL nor an [=], and a value
    without a NUL).  Eager: assigning the string [v] to [K] succeeds, the
    store then holds [v] at [K], and reading [K] returns [v].  Lazy:
    reading [K] yields an accessor; calling it with [v] stores [v] at [K]
    and returns [v], and calling it afterwards with no argument returns
    [v] again. *)
Theorem C8_write_then_read (options : CreateEnvOptions) (K v : string) (w : world) :
  let handle := createTypedEnv options in
  let env := default ProcessEnv (opt_env options) in
  storable env K v = true ->
  (opt_lazy options = false ->
   let w' := snd (proxy_set handle K (JString v) w) in
   fst (proxy_set handle K (JString v) w) = Normal true /\
   deref env w' !! K = Some v /\
   proxy_get handle K w' = (Normal (PValue v), w')) /\
  (opt_lazy options = true ->
   exists K_accessor,
     proxy_get handle K w = (Normal (PAccessor K_accessor), w) /\
     let w' := snd (K_accessor (Some v) w) in
     fst (K_accessor (Some v) w) = Normal v /\
     deref env w' !! K = Some v /\
     K_accessor None w' = (Normal v, w')).
Proof.
  intros handle env Hstorable. subst handle.
  cbn [createTypedEnv proxy_get proxy_set]. fold env.
  pose proof (deref_assign env K v w Hstorable) as Hstored.
  split; intros Hlazy; rewrite Hlazy.
  - change (set false env K (JString v) w) with (Normal true, assign env K v w).
    cbn [fst snd]. repeat split; [exact Hstored|].
    rewrite get_eager, (getEnvValue_hit _ _ _ _ _ _ Hstored). reflexivity.
  - eexists. split; [reflexivity|].
    rewrite accessor_write, (getEnvValue_hit _ _ _ _ _ _ Hstored).
    cbn [fst snd]. repeat split; [exact Hstored|].
    rewrite accessor_read. exact (getEnvValue_hit _ _ _ _ _ _ Hstored).
Qed.

Lemma C8_write_then_read_witness :
  storable (default ProcessEnv (opt_env eager_options)) "NEW_VAR" "new_value" = true /\
  storable (default ProcessEnv (opt_env lazy_options)) "NEW_VAR" "new_value" = true /\
  opt_lazy eager_options = false /\
  opt_lazy lazy_options = true /\
  proxy_get (createTypedEnv eager_options) "NEW_VAR"
    (snd (proxy_set (createTypedEnv eager_options) "NEW_VAR" (JString "new_value")
            empty_world))
  = (Normal (PValue "new_value"),
     snd (proxy_set (createTypedEnv eager_options) "NEW_VAR" (JString "new_value")
            empty_world)) /\
  exists K_accessor,
    proxy_get (createTypedEnv lazy_options) "NEW_VAR" empty_world
    = (Normal (PAccessor K_accessor), empty_world) /\
    fst (K_accessor (Some "new_value") empty_world) = Normal "new_value".
Proof.
  split; [reflexivity | split; [reflexivity | split; [reflexivity | split; [reflexivity |]]]].
  split.
  - exact (proj2 (proj2 (proj1 (C8_write_then_read eager_options "NEW_VAR" "new_value"
                                  empty_world eq_refl) eq_refl))).
  - destruct (proj2 (C8_write_then_read lazy_options "NEW_VAR" "new_value" empty_world
                       eq_refl) eq_refl) as (K_accessor & Hget & Hcall & _).
    exists K_accessor. split; [exact Hget | exact Hcall].
Defined.

(** C8 as stated fails for the empty key on [process.env]: the eager write
    of ["v"] to [""] succeeds but the store does not keep it, and the read
    that follows does not return ["v"], it fails as not found. *)
Lemma C8_counterexample :
  fst (proxy_set (createTypedEnv eager_options) "" (JString "v") empty_world)
  = Normal true /\
  deref ProcessEnv
    (snd (proxy_set (createTypedEnv eager_options) "" (JString "v") empty_world)) !! ""
  = None /\
  fst (proxy_get (createTypedEnv eager_options) ""
         (snd (proxy_set (createTypedEnv eager_options) "" (JString "v") empty_world)))
  = Throw "Environment variable  not found" /\
  fst (proxy_get (createTypedEnv eager_options) ""
         (snd (proxy_set (createTypedEnv eager_options) "" (JString "v") empty_world)))
  <> Normal (PValue "v").
Proof.
  assert (H : fst (proxy_get (createTypedEnv eager_options) ""
                     (snd (proxy_set (createTypedEnv eager_options) "" (JString "v")
                             empty_world)))
              = Throw "Environment variable  not found") by reflexivity.
  split; [reflexivity | split; [reflexivity | split; [exact H |]]].
  rewrite H. discriminate.
Qed.

(** C9. A read never writes to a store: after an eager property read, and
    after a no-argument call of the accessor a lazy property read returns
    (the lazy property read itself included), both stores are what they
    were, whether the read returned a stored value, returned a fallback
    value or failed.  Only the console may have grown. *)
Theorem C9_reads_leave_stores_unchanged (options : CreateEnvOptions) (prop : string)
    (w : world) :
  let handle := createTypedEnv options in
  stores (snd (proxy_get handle prop w)) = stores w /\
  match fst (proxy_get handle prop w) with
  | Normal (PAccessor prop_accessor) =>
      forall w1 : world, stores (snd (prop_accessor None w1)) = stores w1
  | _ => True
  end.
Proof.
  simpl. destruct (opt_lazy options).
  - simpl. split; [reflexivity|]. intros w1. rewrite accessor_read.
    apply getEnvValue_stores.
  - rewrite get_eager.
    pose proof (getEnvValue_stores (opt_fallback options) (opt_log options)
                  (default ProcessEnv (opt_env options)) prop w) as Hst.
    destruct (getEnvValue _ _ _ prop w) as [[value|e] w']; simpl in *; auto.
Qed.

(** ** Environment-specific fallbacks *)

Lemma js_get_missing props k : js_in k props = false -> js_get props k = JUndefined.
Proof.
  induction props as [|[k' v] rest IH]; simpl; [reflexivity|].
  case_bool_decide; simpl; [discriminate | exact IH].
Qed.

(** The walk of an environment-specific fallback continues in the entry
    named by [process.env.NODE_ENV]. *)
Lemma getFallbackValue_env_specific fallback envs key w :
  env_entries fallback = Some envs ->
  getFallbackValue fallback key w
  = getFallbackValue (js_get envs (to_string (mode_of ProcessEnv w))) key w.
Proof.
  destruct fallback as [| | | | |props]; try discriminate. simpl.
  destruct (js_in "env" props) eqn:Hin; [|discriminate].
  destruct (js_get props "env") as [| | | | |envs'] eqn:Hget; try discriminate.
  intros [= ->]. simp getFallbackValue. rewrite Hin, Hget. reflexivity.
Qed.




(** On the default store the mode field of the store is
    [process.env.NODE_ENV] itself: it is read at each lookup, and changing
    it between two reads changes the entry that is used. *)
Lemma default_store_mode_selects :
  fst (getEnvValue mode_fallback JUndefined ProcessEnv "MISSING_VAR"
         (mode_world "development")) = Normal "dev_fallback" /\
  fst (getEnvValue mode_fallback JUndefined ProcessEnv "MISSING_VAR"
         (assign ProcessEnv "NODE_ENV" "production" (mode_world "development")))
  = Normal "prod_fallback".
Proof. split; reflexivity. Qed.

(** On a supplied store, changing the store's own [NODE_ENV] never changes
    what the read of another key yields, whatever the fallback. *)
Lemma supplied_mode_ignored fallback log key mode w :
  key <> "NODE_ENV" ->
  fst (getEnvValue fallback log SuppliedEnv key (assign SuppliedEnv "NODE_ENV" mode w))
  = fst (getEnvValue fallback log SuppliedEnv key w).
Proof.
  intros Hkey.
  assert (Hsame : deref SuppliedEnv (assign SuppliedEnv "NODE_ENV" mode w) !! key
                  = deref SuppliedEnv w !! key)
    by (simpl; apply lookup_insert_ne; congruence).
  destruct (deref SuppliedEnv w !! key) as [value|] eqn:Hk.
  - rewrite (getEnvValue_hit _ _ _ _ _ _ Hsame), (getEnvValue_hit _ _ _ _ _ _ Hk).
    reflexivity.
  - rewrite (getEnvValue_miss _ _ _ _ _ Hsame), (getEnvValue_miss _ _ _ _ _ Hk).
    rewrite (getFallbackValue_process_env fallback key
               (assign SuppliedEnv "NODE_ENV" mode w) w eq_refl).
    destruct (negb (truthy fallback)); [reflexivity|].
    destruct (fst (getFallbackValue fallback key w)) as [s|e]; [|reflexivity].
    destruct (truthy (JString s)); reflexivity.
Qed.

(** C1, evaluated where the code departs from it. The handle is built on a
    supplied store; [process.env] says [development].  With the supplied
    store's [NODE_ENV] at [development] the read of an absent key returns
    [dev_fallback]; with it changed to [production] the same read still
    returns [dev_fallback], not [prod_fallback]: the walk selects the entry
    by [process.env.NODE_ENV], not by the mode field of the store the
    handle was built on. *)
Theorem C1_mode_of_supplied_store_ignored :
  proxy_get (createTypedEnv supplied_options) "MISSING_VAR" (supplied_world "development")
  = (Normal (PValue "dev_fallback"), supplied_world "development") /\
  proxy_get (createTypedEnv supplied_options) "MISSING_VAR" (supplied_world "production")
  = (Normal (PValue "dev_fallback"), supplied_world "production").
Proof. split; reflexivity. Qed.

(** ** The log policy *)

(** With the policy absent or [false] the sink is never invoked. *)
Lemma log_off_never_fires fallback log env key w :
  truthy log = false ->
  console (snd (getEnvValue fallback log env key w)) = console w.
Proof.
  intros Hoff.
  assert (Hlog : log_enabled log env w = false)
    by (destruct log; try reflexivity; [exact Hoff | discriminate]).
  destruct (deref env w !! key) as [value|] eqn:Hk.
  - rewrite (getEnvValue_hit _ _ _ _ _ _ Hk). reflexivity.
  - rewrite (getEnvValue_miss _ _ _ _ _ Hk). unfold logged. rewrite Hlog.
    destruct (negb (truthy fallback)); [reflexivity|].
    destruct (fst (getFallbackValue fallback key w)) as [s|e]; [|reflexivity].
    destruct (truthy (JString s)); reflexivity.
Qed.

(** With a mode-scoped policy the sink is invoked only if the store's
    current mode is a key of the mapping with a truthy value. *)
Lemma log_mode_scoped_only_if fallback props env key w :
  plain_mode env w = true ->
  console (snd (getEnvValue fallback (JObject props) env key w)) <> console w ->
  exists mode,
    deref env w !! "NODE_ENV" = Some mode /\
    js_in mode props = true /\
    truthy (js_get props mode) = true.
Proof.
  intros _ Hfired.
  destruct (log_enabled (JObject props) env w) eqn:Hlog.
  - simpl in Hlog. unfold mode_of in Hlog.
    destruct (deref env w !! "NODE_ENV") as [mode|]; [|discriminate].
    simpl in Hlog. exists mode. split; [reflexivity|].
    destruct (js_in mode props); [|rewrite andb_false_r in Hlog; discriminate].
    destruct (truthy (js_get props mode)); [auto | rewrite andb_false_r in Hlog; discriminate].
  - exfalso. apply Hfired.
    destruct (deref env w !! key) as [value|] eqn:Hk.
    + rewrite (getEnvValue_hit _ _ _ _ _ _ Hk). reflexivity.
    + rewrite (getEnvValue_miss _ _ _ _ _ Hk). unfold logged. rewrite Hlog.
      destruct (negb (truthy fallback)); [reflexivity|].
      destruct (fst (getFallbackValue fallback key w)) as [s|e]; [|reflexivity].
      destruct (truthy (JString s)); reflexivity.
Qed.

(** With the policy [true] the sink is invoked exactly once when the read
    of an absent key ends in [getEnvValue] itself: not found, fallback
    used, or an empty fallback value. *)
Lemma log_true_fires_once fallback env key w :
  deref env w !! key = None ->
  plain_key key = true ->
  (truthy fallback = false \/ exists s, fst (getFallbackValue fallback key w) = Normal s) ->
  exists message,
    console (snd (getEnvValue fallback (JBoolean true) env key w))
    = (console w ++ [message])%list.
Proof.
  intros Hout _ Hpath. rewrite (getEnvValue_miss _ _ _ _ _ Hout). unfold logged. simpl.
  destruct (truthy fallback); simpl.
  - destruct Hpath as [|[s Hs]]; [discriminate|]. rewrite Hs.
    destruct (negb (bool_decide (s = ""))); eexists; reflexivity.
  - eexists. reflexivity.
Qed.

(** C3, evaluated where the code departs from it. The policy is [true],
    the fallback is a per-key mapping that lacks the key, and the read of
    the absent key fails; the failure is thrown by [getFallbackValue], past
    the [logger] calls of [getEnvValue], and the console stays empty: the
    sink is invoked zero times, not once.  The not-found failure of the
    same read without a fallback is logged once. *)
Theorem C3_walk_failure_not_logged :
  getEnvValue port_fallback (JBoolean true) ProcessEnv "DATABASE_URL" empty_world
  = (Throw "Invalid fallback value: [object Object]", empty_world) /\
  console (snd (getEnvValue port_fallback (JBoolean true) ProcessEnv "DATABASE_URL"
                  empty_world)) = [] /\
  console (snd (getEnvValue JUndefined (JBoolean true) ProcessEnv "DATABASE_URL"
                  empty_world)) = ["Environment variable DATABASE_URL not found"].
Proof. repeat split. Qed.

(** * Further properties of the code *)

(** ** Helper facts *)

Lemma logger_normal log env message w :
  fst (logger log env message w) = Normal tt.
Proof. rewrite logger_run. reflexivity. Qed.

Lemma logger_keeps_stores log env message w :
  stores (snd (logger log env message w)) = stores w.
Proof. rewrite logger_run. simpl. destruct (log_enabled log env w); reflexivity. Qed.


Lemma log_enabled_stores log env w1 w2 :
  stores w1 = stores w2 -> log_enabled log env w1 = log_enabled log env w2.
Proof.
  intros [= Hpe Hse]. unfold log_enabled, mode_of.
  destruct env; simpl; rewrite ?Hpe, ?Hse; reflexivity.
Qed.

(** ** The [set] trap in lazy mode *)

(** X1. In lazy mode an assignment through the Proxy is always rejected,
    whatever the value (a string included), with the message that points
    to the function-call form; nothing is written and nothing is logged. *)
Theorem X1_lazy_assignment_rejected (options : CreateEnvOptions) (prop : string)
    (value : jsval) (w : world) :
  opt_lazy options = true ->
  proxy_set (createTypedEnv options) prop value w = (Throw (InvalidAccessMode prop), w).
Proof. intros Hlazy. simpl. unfold set. rewrite Hlazy. reflexivity. Qed.

Lemma X1_lazy_assignment_rejected_witness :
  opt_lazy lazy_options = true /\
  proxy_set (createTypedEnv lazy_options) "NEW_VAR" (JString "new_value") empty_world
  = (Throw (InvalidAccessMode "NEW_VAR"), empty_world).
Proof.
  split; [reflexivity |].
  exact (X1_lazy_assignment_rejected lazy_options "NEW_VAR" (JString "new_value")
           empty_world eq_refl).
Defined.

(** ** Reads of a missing key without a fallback *)



(** ** The logger *)

(** X3. [logger] never throws and never writes to a store; it leaves the
    console as it is or appends its one message.  With the policy absent
    or [false] it is silent, with the policy [true] it always warns.  What
    it does depends on the handle's own store only: in two worlds where
    that store and the console agree, it leaves the same console. *)
Theorem X3_logger_effect (log : jsval) (env : env_ref) (message : string) (w : world) :
  fst (logger log env message w) = Normal tt /\
  stores (snd (logger log env message w)) = stores w /\
  (console (snd (logger log env message w)) = console w \/
   console (snd (logger log env message w)) = (console w ++ [message])%list) /\
  (truthy log = false -> console (snd (logger log env message w)) = console w) /\
  (log = JBoolean true ->
   console (snd (logger log env message w)) = (console w ++ [message])%list) /\
  (forall w2 : world,
     deref env w2 = deref env w -> console w2 = console w ->
     console (snd (logger log env message w2)) = console (snd (logger log env message w))).
Proof.
  split; [apply logger_normal|]. split; [apply logger_keeps_stores|].
  rewrite logger_run. cbn [snd]. split; [|split; [|split]].
  - destruct (log_enabled log env w); [right | left]; reflexivity.
  - intros Hoff.
    assert (Hlog : log_enabled log env w = false)
      by (destruct log; try reflexivity; [exact Hoff | discriminate]).
    rewrite Hlog. reflexivity.
  - intros ->. reflexivity.
  - intros w2 Henv Hconsole. rewrite logger_run. cbn [snd].
    assert (Hlog : log_enabled log env w2 = log_enabled log env w)
      by (unfold log_enabled, mode_of; rewrite Henv; reflexivity).
    rewrite Hlog. destruct (log_enabled log env w); simpl; rewrite Hconsole; reflexivity.
Qed.

Lemma X3_logger_effect_witness :
  JBoolean true = JBoolean true /\
  console (snd (logger (JBoolean true) ProcessEnv "warning" empty_world))
  = (console empty_world ++ ["warning"])%list.
Proof.
  split; [reflexivity |].
  exact (proj1 (proj2 (proj2 (proj2 (proj2
           (X3_logger_effect (JBoolean true) ProcessEnv "warning" empty_world))))) eq_refl).
Defined.

(** X4. With a mode-scoped policy, and a mode of the handle's store that
    names no member the policy inherits, [logger] warns exactly when the
    [NODE_ENV] of the handle's store is set, is not the empty string, is a
    key of the policy and the policy's value for it is truthy; in every
    other case (no mode, empty mode, mode missing from the policy, value
    [false]) the console is left as it is. *)
Theorem X4_logger_mode_scoped (props : list (string * jsval)) (env : env_ref)
    (message : string) (w : world) :
  let fires := exists mode,
                 deref env w !! "NODE_ENV" = Some mode /\ mode <> "" /\
                 js_in mode props = true /\ truthy (js_get props mode) = true in
  plain_mode env w = true ->
  (fires -> console (snd (logger (JObject props) env message w))
            = (console w ++ [message])%list) /\
  (~ fires -> console (snd (logger (JObject props) env message w)) = console w).
Proof.
  intros fires _. subst fires. rewrite logger_run. cbn [snd].
  unfold log_enabled, mode_of.
  destruct (deref env w !! "NODE_ENV") as [mode|] eqn:Hmode; simpl.
  - destruct (bool_decide (mode = "")) eqn:Hempty; simpl.
    + apply bool_decide_eq_true_1 in Hempty. split; [|reflexivity].
      intros (m & [= <-] & Hne & _). contradiction.
    + apply bool_decide_eq_false_1 in Hempty.
      destruct (js_in mode props) eqn:Hin; simpl.
      * destruct (truthy (js_get props mode)) eqn:Hval; simpl.
        -- split; [reflexivity|]. intros Hno. exfalso. apply Hno. exists mode. auto.
        -- split; [|reflexivity]. intros (m & [= <-] & _ & _ & Hv). congruence.
      * split; [|reflexivity]. intros (m & [= <-] & _ & Hi & _). congruence.
  - split; [|reflexivity]. intros (m & Hm & _). discriminate.
Qed.

Lemma X4_logger_mode_scoped_witness :
  plain_mode ProcessEnv (mode_world "development") = true /\
  (exists mode,
     deref ProcessEnv (mode_world "development") !! "NODE_ENV" = Some mode /\ mode <> "" /\
     js_in mode [("development", JBoolean true); ("test", JBoolean false)] = true /\
     truthy (js_get [("development", JBoolean true); ("test", JBoolean false)] mode) = true) /\
  console (snd (logger (JObject [("development", JBoolean true); ("test", JBoolean false)])
                  ProcessEnv "warning" (mode_world "development")))
  = (console (mode_world "development") ++ ["warning"])%list.
Proof.
  assert (Hfires : exists mode,
     deref ProcessEnv (mode_world "development") !! "NODE_ENV" = Some mode /\ mode <> "" /\
     js_in mode [("development", JBoolean true); ("test", JBoolean false)] = true /\
     truthy (js_get [("development", JBoolean true); ("test", JBoolean false)] mode) = true).
  { exists "development". split; [reflexivity | split; [discriminate | split; reflexivity]]. }
  split; [reflexivity | split; [exact Hfires |]].
  exact (proj1 (X4_logger_mode_scoped [("development", JBoolean true); ("test", JBoolean false)]
                  ProcessEnv "warning" (mode_world "development") eq_refl) Hfires).
Defined.

(** ** The fallback walk, kind by kind *)

(** The walk of an object that is not environment-specific. *)
Lemma getFallbackValue_mapping props key w :
  js_in "env" props && bool_decide (typeof (js_get props "env") = "object") = false ->
  getFallbackValue (JObject props) key w
  = if js_in key props then getFallbackValue (js_get props key) key w
    else (Throw "Invalid fallback value: [object Object]", w).
Proof.
  intros Hplain. simp getFallbackValue. rewrite Hplain.
  destruct (js_in key props); reflexivity.
Qed.





(** X7. Environment-specific fallback. When the fallback has an [env]
    property that is an object and [process.env.NODE_ENV] names no member
    that object inherits, the walk continues in the entry of that
    object named by [process.env.NODE_ENV] and in nothing else: a string
    entry is the result, a function entry is called on the key, and when
    there is no entry for the mode the walk fails, also when the fallback
    itself has a property named like the key. *)
Theorem X7_env_specific_entry_only (props envs : list (string * jsval)) (key : string)
    (w : world) :
  let entry := js_get envs (to_string (mode_of ProcessEnv w)) in
  js_in "env" props = true ->
  js_get props "env" = JObject envs ->
  plain_mode ProcessEnv w = true ->
  getFallbackValue (JObject props) key w = getFallbackValue entry key w /\
  (forall s, entry = JString s ->
     getFallbackValue (JObject props) key w = (Normal s, w)) /\
  (forall fn, entry = JFunction fn ->
     getFallbackValue (JObject props) key w = (Normal (fn key), w)) /\
  (js_in (to_string (mode_of ProcessEnv w)) envs = false ->
     getFallbackValue (JObject props) key w = (Throw (InvalidFallbackValue JUndefined), w)).
Proof.
  intros entry Hin Hget _.
  assert (Hentries : env_entries (JObject props) = Some envs)
    by (simpl; rewrite Hin, Hget; reflexivity).
  pose proof (getFallbackValue_env_specific _ _ key w Hentries) as Hwalk. fold entry in Hwalk.
  split; [exact Hwalk |]. rewrite Hwalk. split; [|split].
  - intros s ->. simp getFallbackValue. reflexivity.
  - intros fn ->. simp getFallbackValue. reflexivity.
  - intros Hno. subst entry. rewrite (js_get_missing _ _ Hno). simp getFallbackValue.
    reflexivity.
Qed.

Lemma X7_env_specific_entry_only_witness :
  js_in "env" [("env", JObject [("production", JString "prod_fallback")]);
               ("MISSING_VAR", JString "top_level")] = true /\
  plain_mode ProcessEnv (mode_world "development") = true /\
  getFallbackValue
    (JObject [("env", JObject [("production", JString "prod_fallback")]);
              ("MISSING_VAR", JString "top_level")])
    "MISSING_VAR" (mode_world "development")
  = (Throw (InvalidFallbackValue JUndefined), mode_world "development").
Proof.
  split; [reflexivity | split; [reflexivity |]].
  exact (proj2 (proj2 (proj2
           (X7_env_specific_entry_only
              [("env", JObject [("production", JString "prod_fallback")]);
               ("MISSING_VAR", JString "top_level")]
              [("production", JString "prod_fallback")]
              "MISSING_VAR" (mode_world "development") eq_refl eq_refl eq_refl)))
           eq_refl).
Defined.

(** ** What a read can fail with *)

(** X8. The failures of a read. For a key that is not a name an object
    inherits or [process.env] would cut, and a [process.env.NODE_ENV] that
    names no inherited member, a read fails only when the key is absent
    from the store, and then in one of three ways: with the not-found
    error, when the fallback is falsy; with the invalid-fallback error of
    [getEnvValue], when the fallback is truthy and its walk has yielded
    the empty string; or, the fallback being truthy, with the error its
    walk has failed with, passed on as it is. *)
Theorem X8_read_failures (fallback log : jsval) (env : env_ref) (key e : string) (w : world) :
  plain_key key = true ->
  plain_mode ProcessEnv w = true ->
  fst (getEnvValue fallback log env key w) = Throw e ->
  deref env w !! key = None /\
  ((e = NotFound key /\ truthy fallback = false) \/
   (e = InvalidFallback key /\ truthy fallback = true /\
    fst (getFallbackValue fallback key w) = Normal "") \/
   (truthy fallback = true /\ fst (getFallbackValue fallback key w) = Throw e)).
Proof.
  intros _ _.
  destruct (deref env w !! key) as [value|] eqn:Hk.
  - rewrite (getEnvValue_hit _ _ _ _ _ _ Hk). discriminate.
  - rewrite (getEnvValue_miss _ _ _ _ _ Hk). intros Hfail. split; [reflexivity|].
    destruct (truthy fallback); cbn [negb] in Hfail.
    + destruct (fst (getFallbackValue fallback key w)) as [s|e'] eqn:Hwalk.
      * destruct (truthy (JString s)) eqn:Hs; [discriminate|].
        injection Hfail as <-. right. left.
        split; [reflexivity | split; [reflexivity|]].
        simpl in Hs. apply negb_false_iff, bool_decide_eq_true_1 in Hs. subst s.
        reflexivity.
      * injection Hfail as <-. right. right. split; reflexivity.
    + injection Hfail as <-. left. split; reflexivity.
Qed.

Lemma X8_read_failures_witness :
  plain_key "DATABASE_URL" = true /\
  plain_mode ProcessEnv empty_world = true /\
  fst (getEnvValue port_fallback JUndefined ProcessEnv "DATABASE_URL" empty_world)
  = Throw "Invalid fallback value: [object Object]" /\
  deref ProcessEnv empty_world !! "DATABASE_URL" = None.
Proof.
  assert (Hfail : fst (getEnvValue port_fallback JUndefined ProcessEnv "DATABASE_URL"
                         empty_world)
                  = Throw "Invalid fallback value: [object Object]") by reflexivity.
  split; [reflexivity | split; [reflexivity | split; [exact Hfail |]]].
  exact (proj1 (X8_read_failures port_fallback JUndefined ProcessEnv "DATABASE_URL" _
                  empty_world eq_refl eq_refl Hfail)).
Defined.

(** ** Reads are repeatable *)

Lemma getEnvValue_by_stores fallback log env key w1 w2 :
  stores w1 = stores w2 ->
  fst (getEnvValue fallback log env key w1) = fst (getEnvValue fallback log env key w2).
Proof.
  intros Hst. assert (Hpe : process_env w1 = process_env w2) by (injection Hst; auto).
  assert (Hd : deref env w1 = deref env w2)
    by (injection Hst; intros; destruct env; simpl; auto).
  destruct (deref env w2 !! key) as [value|] eqn:Hk.
  - rewrite (getEnvValue_hit _ _ _ _ _ w2 Hk).
    rewrite <- Hd in Hk. rewrite (getEnvValue_hit _ _ _ _ _ w1 Hk). reflexivity.
  - rewrite (getEnvValue_miss _ _ _ _ w2 Hk).
    rewrite <- Hd in Hk. rewrite (getEnvValue_miss _ _ _ _ w1 Hk).
    rewrite (getFallbackValue_process_env fallback key w1 w2 Hpe).
    destruct (negb (truthy fallback)); [reflexivity|].
    destruct (fst (getFallbackValue fallback key w2)) as [s|e]; [|reflexivity].
    destruct (truthy (JString s)); reflexivity.
Qed.

(** X9. Reads are repeatable. The outcome of a read (the value returned
    or the error thrown) depends on the two stores only, not on the
    console; so reading the same key twice in a row gives the same outcome
    twice, whatever was logged in between, and the second read logs
    what the first one logged: nothing is cached or remembered. *)
Theorem X9_reads_repeatable (fallback log : jsval) (env : env_ref) (key : string) (w : world) :
  let first := getEnvValue fallback log env key w in
  let second := getEnvValue fallback log env key (snd first) in
  fst second = fst first /\
  exists messages,
    console (snd first) = (console w ++ messages)%list /\
    console (snd second) = (console w ++ messages ++ messages)%list.
Proof.
  intros first second. subst first second.
  pose proof (getEnvValue_stores fallback log env key w) as Hst.
  split; [apply getEnvValue_by_stores; exact Hst |].
  set (w1 := snd (getEnvValue fallback log env key w)) in *.
  assert (Hlog : log_enabled log env w1 = log_enabled log env w)
    by (apply log_enabled_stores; exact Hst).
  assert (Hpe : process_env w1 = process_env w) by (injection Hst; auto).
  assert (Hd : deref env w1 = deref env w)
    by (injection Hst; intros; destruct env; simpl; auto).
  destruct (deref env w !! key) as [value|] eqn:Hk.
  - assert (Hw1 : w1 = w) by (subst w1; rewrite (getEnvValue_hit _ _ _ _ _ _ Hk); reflexivity).
    rewrite Hw1, (getEnvValue_hit _ _ _ _ _ _ Hk). exists []. cbn [snd].
    rewrite !app_nil_r. auto.
  - assert (Hk1 : deref env w1 !! key = None) by (rewrite Hd; exact Hk).
    rewrite (getEnvValue_miss _ _ _ _ w1 Hk1).
    rewrite (getFallbackValue_process_env fallback key w1 w Hpe).
    unfold logged. rewrite Hlog.
    assert (Hfirst : getEnvValue fallback log env key w = (fst (getEnvValue fallback log env key w), w1))
      by (subst w1; destruct (getEnvValue fallback log env key w); reflexivity).
    rewrite (getEnvValue_miss _ _ _ _ w Hk) in Hfirst. unfold logged in Hfirst.
    destruct (negb (truthy fallback)).
    + destruct (log_enabled log env w); injection Hfirst as Hw1; rewrite <- Hw1; cbn.
      * eexists [_]. split; [reflexivity|]. rewrite <- app_assoc. reflexivity.
      * exists []. rewrite !app_nil_r. auto.
    + destruct (fst (getFallbackValue fallback key w)) as [s|e].
      * destruct (truthy (JString s)); destruct (log_enabled log env w);
          injection Hfirst as Hw1; rewrite <- Hw1; cbn;
          try (eexists [_]; split; [reflexivity|]; rewrite <- app_assoc; reflexivity);
          exists []; rewrite !app_nil_r; auto.
      * injection Hfirst as Hw1. rewrite <- Hw1. cbn. exists []. rewrite !app_nil_r. auto.
Qed.

(** ** Writes and what they leave alone *)

Lemma deref_assign_same env key value w :
  storable env key value = true ->
  deref env (assign env key value w) = <[key := value]> (deref env w).
Proof. intros Hst. rewrite (assign_storable _ _ _ _ Hst). destruct env; reflexivity. Qed.

Lemma deref_assign_other r env key value w :
  r <> env -> deref r (assign env key value w) = deref r w.
Proof.
  unfold assign. destruct (stored_as env key value); [|reflexivity].
  destruct r, env; simpl; congruence.
Qed.

Lemma console_assign env key value w : console (assign env key value w) = console w.
Proof.
  unfold assign. destruct (stored_as env key value); [|reflexivity].
  destruct env; reflexivity.
Qed.

(** X10. A write changes one key of one store. For a key and a string
    the store keeps as they are, the eager assignment of the string and the
    lazy call of the accessor with it both end in a world where the handle's store is the old
    store with the key set to the string; every other key of that store,
    the other store and the console are as before.  The accessor returns
    the string it wrote. *)
Theorem X10_write_frame (options : CreateEnvOptions) (K v : string) (w : world) :
  let handle := createTypedEnv options in
  let env := default ProcessEnv (opt_env options) in
  let written (w' : world) :=
    deref env w' = <[K := v]> (deref env w) /\
    (forall r, r <> env -> deref r w' = deref r w) /\
    console w' = console w in
  storable env K v = true ->
  (opt_lazy options = false ->
   fst (proxy_set handle K (JString v) w) = Normal true /\
   written (snd (proxy_set handle K (JString v) w))) /\
  (opt_lazy options = true ->
   exists K_accessor,
     proxy_get handle K w = (Normal (PAccessor K_accessor), w) /\
     fst (K_accessor (Some v) w) = Normal v /\
     written (snd (K_accessor (Some v) w))).
Proof.
  intros handle env written Hstorable. subst handle written.
  cbn [createTypedEnv proxy_get proxy_set]. fold env.
  assert (Hw : deref env (assign env K v w) = <[K := v]> (deref env w) /\
               (forall r, r <> env -> deref r (assign env K v w) = deref r w) /\
               console (assign env K v w) = console w).
  { split; [apply deref_assign_same; exact Hstorable | split; [|apply console_assign]].
    intros r Hr. apply deref_assign_other. exact Hr. }
  split; intros Hlazy; rewrite Hlazy.
  - change (set false env K (JString v) w) with (Normal true, assign env K v w).
    split; [reflexivity | exact Hw].
  - eexists. split; [reflexivity|].
    rewrite accessor_write,
      (getEnvValue_hit _ _ _ _ _ _ (deref_assign env K v w Hstorable)).
    split; [reflexivity | exact Hw].
Qed.

Lemma X10_write_frame_witness :
  storable (default ProcessEnv (opt_env (options_on SuppliedEnv false))) "PORT" "3000"
  = true /\
  opt_lazy (options_on SuppliedEnv false) = false /\
  deref SuppliedEnv
    (snd (proxy_set (createTypedEnv (options_on SuppliedEnv false)) "PORT" (JString "3000")
            hit_world))
  = <["PORT" := "3000"]> (deref SuppliedEnv hit_world).
Proof.
  split; [reflexivity | split; [reflexivity |]].
  exact (proj1 (proj2 (proj1 (X10_write_frame (options_on SuppliedEnv false) "PORT" "3000"
                                hit_world eq_refl) eq_refl))).
Defined.

(** The walk reads nothing of the world but [process.env.NODE_ENV]. *)
Lemma getFallbackValue_by_mode fallback key w1 w2 :
  mode_of ProcessEnv w1 = mode_of ProcessEnv w2 ->
  fst (getFallbackValue fallback key w1) = fst (getFallbackValue fallback key w2).
Proof.
  intros Hmode. funelim (getFallbackValue fallback key); simp getFallbackValue;
    try reflexivity.
  destruct (js_in "env" props && bool_decide (typeof (js_get props "env") = "object")).
  - unfold mode_of in Hmode. run. rewrite Hmode. auto.
  - destruct (js_in key props); [auto | reflexivity].
Qed.

(** The outcome of a read is settled by the key's entry in the handle's
    store and by [process.env.NODE_ENV]. *)
Lemma getEnvValue_by_reads fallback log env key w1 w2 :
  deref env w1 !! key = deref env w2 !! key ->
  mode_of ProcessEnv w1 = mode_of ProcessEnv w2 ->
  fst (getEnvValue fallback log env key w1) = fst (getEnvValue fallback log env key w2).
Proof.
  intros Hkey Hmode.
  destruct (deref env w2 !! key) as [value|] eqn:Hk.
  - rewrite (getEnvValue_hit _ _ _ _ _ w2 Hk), (getEnvValue_hit _ _ _ _ _ w1 Hkey).
    reflexivity.
  - rewrite (getEnvValue_miss _ _ _ _ w2 Hk), (getEnvValue_miss _ _ _ _ w1 Hkey).
    rewrite (getFallbackValue_by_mode fallback key w1 w2 Hmode).
    destruct (negb (truthy fallback)); [reflexivity|].
    destruct (fst (getFallbackValue fallback key w2)) as [s|e]; [|reflexivity].
    destruct (truthy (JString s)); reflexivity.
Qed.

(** X11. Handles share their store and nothing else. For a key and a
    string the store keeps as they are, the string written through one
    eager handle is what any other eager handle on the same
    store reads for that key, whatever its fallback and log options.  A
    write through a handle on another store does not change the outcome of
    a read, provided the written key is not [NODE_ENV] of [process.env],
    which the fallback walk of every handle reads. *)
Theorem X11_shared_store (writer reader : CreateEnvOptions) (K v key : string) (w : world) :
  let env_w := default ProcessEnv (opt_env writer) in
  let env_r := default ProcessEnv (opt_env reader) in
  let w' := snd (proxy_set (createTypedEnv writer) K (JString v) w) in
  opt_lazy writer = false ->
  opt_lazy reader = false ->
  storable env_w K v = true ->
  (env_w = env_r ->
   proxy_get (createTypedEnv reader) K w' = (Normal (PValue v), w')) /\
  (env_w <> env_r -> (env_w = SuppliedEnv \/ K <> "NODE_ENV") ->
   fst (proxy_get (createTypedEnv reader) key w')
   = fst (proxy_get (createTypedEnv reader) key w)).
Proof.
  intros env_w env_r w' Hw Hr Hstorable. subst w'.
  cbn [createTypedEnv proxy_get proxy_set]. fold env_w env_r. rewrite Hw, Hr.
  change (set false env_w K (JString v) w) with (Normal true, assign env_w K v w).
  cbn [snd]. split.
  - intros <-.
    rewrite get_eager, (getEnvValue_hit _ _ _ _ _ _ (deref_assign env_w K v w Hstorable)).
    reflexivity.
  - intros Hne Hsafe. rewrite !get_eager.
    assert (Hd : deref env_r (assign env_w K v w) !! key = deref env_r w !! key)
      by (rewrite deref_assign_other by congruence; reflexivity).
    assert (Hmode : mode_of ProcessEnv (assign env_w K v w) = mode_of ProcessEnv w).
    { rewrite (assign_storable _ _ _ _ Hstorable).
      unfold mode_of. destruct env_w; simpl; [|reflexivity].
      destruct Hsafe as [|HK]; [discriminate|].
      rewrite lookup_insert_ne by congruence. reflexivity. }
    pose proof (getEnvValue_by_reads (opt_fallback reader) (opt_log reader) env_r key
                  _ _ Hd Hmode) as Hread.
    destruct (getEnvValue _ _ env_r key (assign env_w K v w)) as [[a|e] wa];
      destruct (getEnvValue _ _ env_r key w) as [[b|e'] wb]; simpl in *; congruence.
Qed.

Lemma X11_shared_store_witness :
  storable (default ProcessEnv (opt_env eager_options)) "NEW_VAR" "new_value" = true /\
  opt_lazy eager_options = false /\
  opt_lazy hit_options = false /\
  default ProcessEnv (opt_env eager_options)
  = default ProcessEnv (opt_env (options_on ProcessEnv false)) /\
  proxy_get (createTypedEnv (options_on ProcessEnv false)) "NEW_VAR"
    (snd (proxy_set (createTypedEnv eager_options) "NEW_VAR" (JString "new_value")
            empty_world))
  = (Normal (PValue "new_value"),
     snd (proxy_set (createTypedEnv eager_options) "NEW_VAR" (JString "new_value")
            empty_world)).
Proof.
  split; [reflexivity | split; [reflexivity | split; [reflexivity | split; [reflexivity |]]]].
  exact (proj1 (X11_shared_store eager_options (options_on ProcessEnv false)
                  "NEW_VAR" "new_value" "NEW_VAR" empty_world eq_refl eq_refl eq_refl)
           eq_refl).
Defined.

(** X12. Writes compose as assignments do, for keys and strings the store
    keeps as they are. Two eager writes to the same key leave the world the
    second write alone would leave, and a read then returns the second
    string; two eager writes to different keys leave the same world in
    either order. *)
Theorem X12_writes_compose (options : CreateEnvOptions) (K1 K2 v1 v2 : string) (w : world) :
  let handle := createTypedEnv options in
  let write K v w := snd (proxy_set handle K (JString v) w) in
  let env := default ProcessEnv (opt_env options) in
  opt_lazy options = false ->
  storable env K1 v1 = true ->
  storable env K1 v2 = true ->
  storable env K2 v2 = true ->
  write K1 v2 (write K1 v1 w) = write K1 v2 w /\
  proxy_get handle K1 (write K1 v2 (write K1 v1 w))
  = (Normal (PValue v2), write K1 v2 w) /\
  (K1 <> K2 -> write K2 v2 (write K1 v1 w) = write K1 v1 (write K2 v2 w)).
Proof.
  intros handle write env Hlazy H11 H12 H22. subst handle write.
  cbn [createTypedEnv proxy_get proxy_set]. rewrite Hlazy. fold env.
  assert (Hset : forall K v w0, snd (set false env K (JString v) w0) = assign env K v w0)
    by reflexivity.
  rewrite !Hset.
  assert (Hover : assign env K1 v2 (assign env K1 v1 w) = assign env K1 v2 w).
  { rewrite !(assign_storable _ _ _ _ H12), (assign_storable _ _ _ _ H11).
    destruct env; simpl; rewrite insert_insert_eq; reflexivity. }
  split; [exact Hover | split].
  - rewrite Hover, get_eager, (getEnvValue_hit _ _ _ _ _ _ (deref_assign env K1 v2 w H12)).
    reflexivity.
  - intros Hne.
    rewrite !(assign_storable _ _ _ _ H22), !(assign_storable _ _ _ _ H11).
    destruct env; simpl; f_equal; apply insert_insert_ne; congruence.
Qed.

Lemma X12_writes_compose_witness :
  opt_lazy eager_options = false /\
  storable (default ProcessEnv (opt_env eager_options)) "PORT" "3000" = true /\
  storable (default ProcessEnv (opt_env eager_options)) "PORT" "8080" = true /\
  proxy_get (createTypedEnv eager_options) "PORT"
    (snd (proxy_set (createTypedEnv eager_options) "PORT" (JString "8080")
            (snd (proxy_set (createTypedEnv eager_options) "PORT" (JString "3000")
                    empty_world))))
  = (Normal (PValue "8080"),
     snd (proxy_set (createTypedEnv eager_options) "PORT" (JString "8080") empty_world)).
Proof.
  split; [reflexivity | split; [reflexivity | split; [reflexivity |]]].
  exact (proj1 (proj2 (X12_writes_compose eager_options "PORT" "PORT" "3000" "8080"
                         empty_world eq_refl eq_refl eq_refl eq_refl))).
Defined.

(** ** Lazy reads are deferred eager reads *)

(** X13. In lazy mode a property read never fails and changes nothing,
    also when the variable is missing and there is no fallback: it
    yields an accessor.  Calling the accessor with no argument, in
    whatever world it is called, does exactly what an eager read of the
    same key under the same options does in that world; in particular it
    returns what the store holds for the key at the time of the call. *)
Theorem X13_lazy_read_deferred (options : CreateEnvOptions) (K : string) (w : world) :
  let env := default ProcessEnv (opt_env options) in
  opt_lazy options = true ->
  exists K_accessor,
    proxy_get (createTypedEnv options) K w = (Normal (PAccessor K_accessor), w) /\
    (forall w' : world,
       proxy_get (createTypedEnv (with_lazy false options)) K w'
       = match K_accessor None w' with
         | (Normal value, w'') => (Normal (PValue value), w'')
         | (Throw e, w'') => (Throw e, w'')
         end) /\
    (forall (v : string) (w' : world),
       deref env w' !! K = Some v -> K_accessor None w' = (Normal v, w')).
Proof.
  intros env Hlazy. cbn [createTypedEnv proxy_get with_lazy opt_env opt_lazy opt_fallback opt_log].
  fold env. rewrite Hlazy. eexists. split; [reflexivity | split].
  - intros w'. rewrite get_eager, accessor_read. reflexivity.
  - intros v w' Hin. rewrite accessor_read. apply getEnvValue_hit. exact Hin.
Qed.

Lemma X13_lazy_read_deferred_witness :
  opt_lazy lazy_options = true /\
  exists K_accessor,
    proxy_get (createTypedEnv lazy_options) "DATABASE_URL" empty_world
    = (Normal (PAccessor K_accessor), empty_world) /\
    K_accessor None (assign ProcessEnv "DATABASE_URL" "new_db_url" empty_world)
    = (Normal "new_db_url", assign ProcessEnv "DATABASE_URL" "new_db_url" empty_world).
Proof.
  split; [reflexivity |].
  destruct (X13_lazy_read_deferred lazy_options "DATABASE_URL" empty_world eq_refl)
    as (K_accessor & Hget & _ & Hcall).
  exists K_accessor. split; [exact Hget |].
  exact (Hcall "new_db_url" (assign ProcessEnv "DATABASE_URL" "new_db_url" empty_world)
           eq_refl).
Defined.

(** ** The mode follows writes to [process.env] *)



(** ** The walk on well-typed fallbacks *)

Lemma is_Record_get props k :
  is_Record props = true ->
  js_in k props = true ->
  exists s, js_get props k = JString s.
Proof.
  induction props as [|[k' v] rest IH]; simpl; [discriminate|].
  intros Hrec Hin. apply andb_true_iff in Hrec as [Hv Hrest].
  case_bool_decide; simpl in *.
  - destruct v; try (apply bool_decide_eq_true_1 in Hv; discriminate). eauto.
  - apply IH; assumption.
Qed.

Lemma is_Record_plain props :
  is_Record props = true ->
  js_in "env" props && bool_decide (typeof (js_get props "env") = "object") = false.
Proof.
  intros Hrec. destruct (js_in "env" props) eqn:Hin; [|reflexivity].
  destruct (is_Record_get _ _ Hrec Hin) as [s ->]. reflexivity.
Qed.

Lemma is_NodeEnvs_get envs k :
  is_NodeEnvs envs = true ->
  js_get envs k = JUndefined \/ is_FallbackValue (js_get envs k) = true.
Proof.
  induction envs as [|[k' v] rest IH]; simpl; [auto|].
  intros Henvs. apply andb_true_iff in Henvs as [Hv Hrest].
  apply andb_true_iff in Hv as [_ Hv].
  case_bool_decide; [|apply IH; exact Hrest].
  destruct v; auto; discriminate.
Qed.

Lemma getFallbackValue_value v key w :
  v = JUndefined \/ is_FallbackValue v = true ->
  fst (getFallbackValue v key w) = resolve_value v key.
Proof.
  intros [-> | Hv]; [simp getFallbackValue; reflexivity|].
  destruct v as [| s | b | z | fn | props]; try discriminate;
    try (simp getFallbackValue; reflexivity).
  simpl in Hv. rewrite (getFallbackValue_mapping _ _ _ (is_Record_plain _ Hv)). simpl.
  destruct (js_in key props) eqn:Hin; [|reflexivity].
  destruct (is_Record_get _ _ Hv Hin) as [s ->]. simp getFallbackValue. reflexivity.
Qed.

Lemma is_Fallback_cases fallback :
  is_Fallback fallback = true ->
  is_FallbackValue fallback = true \/
  exists envs, fallback = JObject [("env", JObject envs)] /\ is_NodeEnvs envs = true.
Proof.
  unfold is_Fallback. intros Htyped. apply orb_true_iff in Htyped as [Hvalue | Henvs];
    [left; exact Hvalue | right].
  destruct fallback as [| | | | |[|[k v] rest]]; try discriminate.
  destruct v as [| | | | |envs]; try (destruct rest; discriminate).
  destruct rest; [|discriminate].
  apply andb_true_iff in Henvs as [Hk Henvs]. apply bool_decide_eq_true_1 in Hk. subst k.
  exists envs. split; [reflexivity | exact Henvs].
Qed.

(** X15. On a fallback of the declared type [Fallback] the recursive walk
    is the lookup the types describe: an environment-specific fallback
    yields what its entry for [process.env.NODE_ENV] yields, any other
    fallback yields for itself; a string yields itself, a function its
    result on the key, a mapping its entry for the key, a mapping without
    the key fails with [Invalid fallback value: [object Object]] and a
    missing mode entry with [Invalid fallback value: undefined].  The walk
    goes no deeper and fails in no other way.  This holds for a key and a
    mode that name no member every object inherits, where [in] and [[]]
    see only the entries of the fallback, and for a fallback whose
    mappings have no [toString] of their own. *)
Theorem X15_walk_of_typed_fallback (fallback : jsval) (key : string) (w : world) :
  is_Fallback fallback = true ->
  plain_key key = true ->
  plain_mode ProcessEnv w = true ->
  default_rendering fallback = true ->
  fst (getFallbackValue fallback key w)
  = resolve_fallback fallback key (mode_of ProcessEnv w).
Proof.
  intros Htyped _ _ _. unfold resolve_fallback.
  destruct (is_Fallback_cases _ Htyped) as [Hvalue | (envs & -> & Henvs)].
  - assert (Hentries : env_entries fallback = None).
    { destruct fallback as [| | | | |props]; try reflexivity. simpl in *.
      destruct (js_in "env" props) eqn:Hin; [|reflexivity].
      destruct (is_Record_get _ _ Hvalue Hin) as [s ->]. reflexivity. }
    rewrite Hentries. apply getFallbackValue_value. right. exact Hvalue.
  - assert (Hentries : env_entries (JObject [("env", JObject envs)]) = Some envs)
      by reflexivity.
    rewrite Hentries, (getFallbackValue_env_specific _ _ _ _ Hentries).
    apply getFallbackValue_value, is_NodeEnvs_get. exact Henvs.
Qed.

Lemma X15_walk_of_typed_fallback_witness :
  is_Fallback mode_object_fallback = true /\
  plain_key "MISSING_VAR" = true /\
  plain_mode ProcessEnv (mode_world "test") = true /\
  default_rendering mode_object_fallback = true /\
  fst (getFallbackValue mode_object_fallback "MISSING_VAR" (mode_world "test"))
  = Normal "test_fallback".
Proof.
  split; [reflexivity | split; [reflexivity | split; [reflexivity | split; [reflexivity |]]]].
  exact (X15_walk_of_typed_fallback mode_object_fallback "MISSING_VAR" (mode_world "test")
           eq_refl eq_refl eq_refl eq_refl).
Defined.

(** ** [createTypedEnv] against the previous revision *)

Lemma CreateEnv_is_Fallback_cases fallback :
  CreateEnv.is_Fallback fallback = true ->
  CreateEnv.is_Value fallback = true \/
  exists envs, fallback = JObject [("env", JObject envs)] /\
               CreateEnv.is_NodeEnvs envs = true.
Proof.
  unfold CreateEnv.is_Fallback. intros Htyped.
  apply orb_true_iff in Htyped as [Hvalue | Henvs]; [left; exact Hvalue | right].
  destruct fallback as [| | | | |[|[k v] rest]]; try discriminate.
  destruct v as [| | | | |envs]; try (destruct rest; discriminate).
  destruct rest; [|discriminate].
  apply andb_true_iff in Henvs as [Hk Henvs]. apply bool_decide_eq_true_1 in Hk. subst k.
  exists envs. split; [reflexivity | exact Henvs].
Qed.

Lemma CreateEnv_is_NodeEnvs_get envs k :
  CreateEnv.is_NodeEnvs envs = true ->
  js_get envs k = JUndefined \/ CreateEnv.is_Value (js_get envs k) = true.
Proof.
  induction envs as [|[k' v] rest IH]; simpl; [auto|].
  intros Henvs. apply andb_true_iff in Henvs as [Hv Hrest].
  apply andb_true_iff in Hv as [_ Hv].
  case_bool_decide; [|apply IH; exact Hrest].
  destruct v; auto; discriminate.
Qed.

Lemma CreateEnv_getEnvValue_hit tE fallback log env key value w :
  deref env w !! key = Some value ->
  CreateEnv.getEnvValue tE fallback log env key w = (Normal value, w).
Proof. intros Hin. unfold CreateEnv.getEnvValue. run. rewrite Hin. reflexivity. Qed.

Lemma bind_logger {A} log env message (k : JS A) w :
  (let* _ := logger log env message in k) w = k (logged log env message w).
Proof. unfold bind. rewrite logger_run. reflexivity. Qed.

Lemma CreateEnv_getEnvValue_object tE props log env key w :
  deref env w !! key = None ->
  CreateEnv.getEnvValue tE (JObject props) log env key w =
    match (if js_in "env" props && bool_decide (typeof (js_get props "env") = "object")
           then js_prop (js_get props "env") (to_string (mode_of ProcessEnv w))
           else JObject props) with
    | JString s =>
        (Normal s, logged log env ("Environment variable " +:+ key
                                   +:+ " not found, using fallback '" +:+ s +:+ "'") w)
    | JObject entries =>
        if js_in key entries && bool_decide (typeof (js_get entries key) = "string") then
          (Normal (to_string (js_get entries key)),
           logged log env ("Environment variable " +:+ key
                           +:+ " not found, using fallback '"
                           +:+ to_string (js_get entries key) +:+ "'") w)
        else (Throw (InvalidFallback key), logged log env (InvalidFallback key) w)
    | JFunction _ => (Throw (InvalidFallback key), logged log env (InvalidFallback key) w)
    | v => (Throw (tE key v), w)
    end.
Proof.
  intros Hout. unfold CreateEnv.getEnvValue.
  unfold bind at 1. unfold env_lookup. rewrite Hout.
  change (negb (truthy (JObject props))) with false. cbv iota.
  rewrite (bool_decide_eq_false_2 (typeof (JObject props) = "string")) by discriminate.
  rewrite (bool_decide_eq_true_2 (typeof (JObject props) = "object")) by reflexivity.
  cbv iota. unfold bind at 1. unfold env_get at 1. cbn [deref js_has js_prop].
  unfold mode_of. cbn [deref].
  set (fallbackEnv := if js_in "env" props && _ then _ else _).
  destruct fallbackEnv as [| s | b | z | fn | entries]; cbn [typeof to_string js_prop].
  - rewrite bool_decide_eq_false_2 by discriminate. reflexivity.
  - rewrite bool_decide_eq_true_2 by reflexivity. rewrite bind_logger. reflexivity.
  - rewrite bool_decide_eq_false_2 by discriminate. reflexivity.
  - rewrite bool_decide_eq_false_2 by discriminate. reflexivity.
  - rewrite bool_decide_eq_false_2 by discriminate.
    unfold bind at 1. cbn [CreateEnv.in_operator ret andb]. rewrite bind_logger.
    reflexivity.
  - rewrite bool_decide_eq_false_2 by discriminate.
    unfold bind at 1. cbn [CreateEnv.in_operator ret].
    destruct (js_in key entries && bool_decide (typeof (js_get entries key) = "string"));
      rewrite bind_logger; reflexivity.
Qed.

Lemma CreateEnv_getEnvValue_string tE s log env key w :
  deref env w !! key = None ->
  s <> "" ->
  CreateEnv.getEnvValue tE (JString s) log env key w
  = (Normal s, logged log env ("Environment variable " +:+ key
                               +:+ " not found, using fallback '" +:+ s +:+ "'") w).
Proof.
  intros Hout Hne. unfold CreateEnv.getEnvValue.
  unfold bind at 1. unfold env_lookup. rewrite Hout.
  rewrite (truthy_nonempty _ Hne). cbn [negb].
  rewrite (bool_decide_eq_true_2 (typeof (JString s) = "string")) by reflexivity.
  rewrite bind_logger. reflexivity.
Qed.

Lemma CreateEnv_getEnvValue_falsy tE fallback log env key w :
  deref env w !! key = None ->
  truthy fallback = false ->
  CreateEnv.getEnvValue tE fallback log env key w
  = (Throw (NotFound key), logged log env (NotFound key) w).
Proof.
  intros Hout Hfalsy. unfold CreateEnv.getEnvValue.
  unfold bind at 1. unfold env_lookup. rewrite Hout, Hfalsy. cbn [negb].
  rewrite bind_logger. reflexivity.
Qed.



Lemma CreateEnv_getEnvValue_object_fst tE props log env key w :
  deref env w !! key = None ->
  fst (CreateEnv.getEnvValue tE (JObject props) log env key w) =
    match (if js_in "env" props && bool_decide (typeof (js_get props "env") = "object")
           then js_prop (js_get props "env") (to_string (mode_of ProcessEnv w))
           else JObject props) with
    | JString s => Normal s
    | JObject entries =>
        if js_in key entries && bool_decide (typeof (js_get entries key) = "string")
        then Normal (to_string (js_get entries key))
        else Throw (InvalidFallback key)
    | JFunction _ => Throw (InvalidFallback key)
    | v => Throw (tE key v)
    end.
Proof.
  intros Hout. rewrite (CreateEnv_getEnvValue_object _ _ _ _ _ _ Hout).
  destruct (if js_in "env" props && _ then _ else _) as [| | | | |entries];
    try reflexivity.
  destruct (js_in key entries && _); reflexivity.
Qed.





(** ** After the walk *)



(** ** What a read depends on *)



(** ** The first revision *)

Lemma CreateEnv0_logger_normal log message w :
  fst (CreateEnv0.logger log message w) = Normal tt.
Proof.
  unfold CreateEnv0.logger. destruct (negb (truthy log)); [reflexivity|].
  destruct (bool_decide (typeof log = "boolean")); [reflexivity|].
  unfold bind, env_get. destruct (_ && _ && _); reflexivity.
Qed.

Lemma CreateEnv0_bind_logger {A} log message (k : JS A) w :
  (let* _ := CreateEnv0.logger log message in k) w
  = k (snd (CreateEnv0.logger log message w)).
Proof.
  unfold bind. pose proof (CreateEnv0_logger_normal log message w) as Hn.
  destruct (CreateEnv0.logger log message w) as [[[]|e] w']; simpl in *;
    [reflexivity | discriminate].
Qed.

Lemma CreateEnv0_getEnvValue_hit tE fallback log key value w :
  process_env w !! key = Some value ->
  CreateEnv0.getEnvValue tE fallback log key w = (Normal (JString value), w).
Proof.
  intros Hin. unfold CreateEnv0.getEnvValue. unfold bind at 1. unfold env_lookup.
  cbn [deref]. rewrite Hin. reflexivity.
Qed.

Lemma CreateEnv0_getEnvValue_falsy tE fallback log key w :
  process_env w !! key = None ->
  truthy fallback = false ->
  fst (CreateEnv0.getEnvValue tE fallback log key w) = Throw (NotFound key).
Proof.
  intros Hout Hfalsy. unfold CreateEnv0.getEnvValue. unfold bind at 1. unfold env_lookup.
  cbn [deref]. rewrite Hout, Hfalsy. rewrite CreateEnv0_bind_logger. reflexivity.
Qed.

Lemma CreateEnv0_getEnvValue_string tE s log key w :
  process_env w !! key = None ->
  s <> "" ->
  fst (CreateEnv0.getEnvValue tE (JString s) log key w) = Normal (JString s).
Proof.
  intros Hout Hne. unfold CreateEnv0.getEnvValue. unfold bind at 1. unfold env_lookup.
  cbn [deref]. rewrite Hout, (truthy_nonempty _ Hne).
  rewrite (bool_decide_eq_true_2 (typeof (JString s) = "string")) by reflexivity.
  rewrite CreateEnv0_bind_logger. reflexivity.
Qed.

Lemma CreateEnv0_getEnvValue_object_fst tE props log key w :
  process_env w !! key = None ->
  fst (CreateEnv0.getEnvValue tE (JObject props) log key w) =
    match (if js_in "env" props && bool_decide (typeof (js_get props "env") = "object")
           then js_prop (js_get props "env") (to_string (mode_of ProcessEnv w))
           else JObject props) with
    | JString s => Normal (JString s)
    | JObject entries =>
        if js_in key entries then Normal (js_get entries key) else Throw (NotFound key)
    | JFunction _ => Throw (NotFound key)
    | v => Throw (tE key v)
    end.
Proof.
  intros Hout. unfold CreateEnv0.getEnvValue. unfold bind at 1. unfold env_lookup.
  cbn [deref]. rewrite Hout. cbn [truthy].
  rewrite (bool_decide_eq_false_2 (typeof (JObject props) = "string")) by discriminate.
  rewrite (bool_decide_eq_true_2 (typeof (JObject props) = "object")) by reflexivity.
  cbv iota. unfold bind at 1. unfold env_get at 1. cbn [deref js_has js_prop].
  unfold mode_of. cbn [deref].
  set (env := if js_in "env" props && _ then _ else _).
  destruct env as [| s | b | z | fn | entries]; cbn [typeof to_string js_prop].
  - rewrite bool_decide_eq_false_2 by discriminate. reflexivity.
  - rewrite bool_decide_eq_true_2 by reflexivity. rewrite CreateEnv0_bind_logger.
    reflexivity.
  - rewrite bool_decide_eq_false_2 by discriminate. reflexivity.
  - rewrite bool_decide_eq_false_2 by discriminate. reflexivity.
  - rewrite bool_decide_eq_false_2 by discriminate.
    unfold bind at 1. cbn [CreateEnv.in_operator ret]. rewrite CreateEnv0_bind_logger.
    reflexivity.
  - rewrite bool_decide_eq_false_2 by discriminate.
    unfold bind at 1. cbn [CreateEnv.in_operator ret].
    destruct (js_in key entries); rewrite CreateEnv0_bind_logger; reflexivity.
Qed.

Lemma revisions_on_value (tE : string -> jsval -> string) (v : jsval) (key : string) :
  v = JUndefined \/ CreateEnv.is_Value v = true ->
  let first :=
    match v with
    | JString s => Normal (JString s)
    | JObject entries =>
        if js_in key entries then Normal (js_get entries key) else Throw (NotFound key)
    | JFunction _ => Throw (NotFound key)
    | v => Throw (tE key v)
    end in
  let second :=
    match v with
    | JString s => Normal s
    | JObject entries =>
        if js_in key entries && bool_decide (typeof (js_get entries key) = "string")
        then Normal (to_string (js_get entries key))
        else Throw (InvalidFallback key)
    | JFunction _ => Throw (InvalidFallback key)
    | v => Throw (tE key v)
    end in
  (forall value, second = Normal value <-> first = Normal (JString value)) /\
  (forall e, first = Throw e -> e = NotFound key \/ e = tE key JUndefined) /\
  (forall e, second = Throw e -> first = Throw e \/ first = Throw (NotFound key)).
Proof.
  intros [-> | Hv] first second; subst first second.
  { split; [|split].
    - intros value. split; discriminate.
    - intros e [= <-]. right. reflexivity.
    - intros e [= <-]. left. reflexivity. }
  destruct v as [| s | | | | entries]; try discriminate.
  - split; [|split]; try discriminate. intros value. split; intros [= ->]; reflexivity.
  - simpl in Hv. destruct (js_in key entries) eqn:Hin; cbn [andb].
    + destruct (is_Record_get _ _ Hv Hin) as [s ->]. cbn [typeof to_string].
      rewrite (bool_decide_eq_true_2 ("string" = "string")) by reflexivity.
      split; [|split]; try discriminate. intros value. split; intros [= ->]; reflexivity.
    + split; [|split].
      * intros value. split; discriminate.
      * intros e [= <-]. left. reflexivity.
      * intros e _. right. reflexivity.
Qed.

(** X20. The first revision against the second. On [process.env], for a
    fallback that is absent or of the declared type, and for a key and a
    [process.env.NODE_ENV] that name no member every object inherits,
    the first [createEnv] returns a value exactly when the second does,
    and the same one.  The first revision fails in two ways only, with the
    not-found error or with the engine's [TypeError] for a missing mode
    entry; where the second fails, the first fails with the same error or
    with the not-found error: the invalid-fallback error came with the
    second revision. *)
Theorem X20_first_and_second_createEnv (TypeError_in : string -> jsval -> string)
    (fallback log : jsval) (key : string) (w : world) :
  let first := fst (CreateEnv0.getEnvValue TypeError_in fallback log key w) in
  let second := fst (CreateEnv.getEnvValue TypeError_in fallback log ProcessEnv key w) in
  fallback = JUndefined \/ CreateEnv.is_Fallback fallback = true ->
  plain_key key = true ->
  plain_mode ProcessEnv w = true ->
  (forall value, second = Normal value <-> first = Normal (JString value)) /\
  (forall e, first = Throw e -> e = NotFound key \/ e = TypeError_in key JUndefined) /\
  (forall e, second = Throw e -> first = Throw e \/ first = Throw (NotFound key)).
Proof.
  intros first second Htyped _ _. subst first second.
  destruct (process_env w !! key) as [stored|] eqn:Hk.
  { rewrite (CreateEnv0_getEnvValue_hit _ _ _ _ _ _ Hk).
    rewrite (CreateEnv_getEnvValue_hit _ _ _ ProcessEnv _ _ _ Hk). cbn [fst].
    split; [|split]; try discriminate. intros value. split; intros [= ->]; reflexivity. }
  assert (Hfalsy : forall fb, truthy fb = false ->
            (forall value,
               fst (CreateEnv.getEnvValue TypeError_in fb log ProcessEnv key w) = Normal value
               <-> fst (CreateEnv0.getEnvValue TypeError_in fb log key w)
                   = Normal (JString value)) /\
            (forall e, fst (CreateEnv0.getEnvValue TypeError_in fb log key w) = Throw e ->
                       e = NotFound key \/ e = TypeError_in key JUndefined) /\
            (forall e,
               fst (CreateEnv.getEnvValue TypeError_in fb log ProcessEnv key w) = Throw e ->
               fst (CreateEnv0.getEnvValue TypeError_in fb log key w) = Throw e \/
               fst (CreateEnv0.getEnvValue TypeError_in fb log key w) = Throw (NotFound key))).
  { intros fb Hfb. rewrite (CreateEnv0_getEnvValue_falsy _ _ _ _ _ Hk Hfb).
    rewrite (CreateEnv_getEnvValue_falsy _ _ _ ProcessEnv _ _ Hk Hfb). cbn [fst].
    split; [|split].
    - intros value. split; discriminate.
    - intros e [= <-]. left. reflexivity.
    - intros e _. right. reflexivity. }
  destruct Htyped as [-> | Htyped]; [apply Hfalsy; reflexivity|].
  destruct (CreateEnv_is_Fallback_cases _ Htyped) as [Hvalue | (envs & -> & Henvs)].
  - destruct fallback as [| s | | | | props]; try discriminate.
    + destruct (decide (s = "")) as [-> | Hne]; [apply Hfalsy; reflexivity|].
      rewrite (CreateEnv0_getEnvValue_string _ _ _ _ _ Hk Hne).
      rewrite (CreateEnv_getEnvValue_string _ _ _ ProcessEnv _ _ Hk Hne). cbn [fst].
      split; [|split]; try discriminate. intros value. split; intros [= ->]; reflexivity.
    + rewrite (CreateEnv0_getEnvValue_object_fst _ _ _ _ _ Hk).
      rewrite (CreateEnv_getEnvValue_object_fst _ _ _ ProcessEnv _ _ Hk).
      simpl in Hvalue. rewrite (is_Record_plain _ Hvalue).
      exact (revisions_on_value TypeError_in (JObject props) key (or_intror Hvalue)).
  - rewrite (CreateEnv0_getEnvValue_object_fst _ _ _ _ _ Hk).
    rewrite (CreateEnv_getEnvValue_object_fst _ _ _ ProcessEnv _ _ Hk).
    change (js_in "env" [("env", JObject envs)]
            && bool_decide (typeof (js_get [("env", JObject envs)] "env") = "object"))
      with true.
    change (js_prop (js_get [("env", JObject envs)] "env")
              (to_string (mode_of ProcessEnv w)))
      with (js_get envs (to_string (mode_of ProcessEnv w))).
    pose proof (revisions_on_value TypeError_in
                  (js_get envs (to_string (mode_of ProcessEnv w))) key
                  (CreateEnv_is_NodeEnvs_get _ _ Henvs)) as Hrev.
    cbv zeta in Hrev.
    destruct (js_get envs (to_string (mode_of ProcessEnv w))); exact Hrev.
Qed.

Lemma X20_first_and_second_createEnv_witness :
  CreateEnv.is_Fallback port_fallback = true /\
  plain_key "PORT" = true /\
  plain_mode ProcessEnv empty_world = true /\
  fst (CreateEnv0.getEnvValue (fun _ _ => "TypeError") port_fallback JUndefined "PORT"
         empty_world) = Normal (JString "3000") /\
  fst (CreateEnv.getEnvValue (fun _ _ => "TypeError") port_fallback JUndefined ProcessEnv
         "PORT" empty_world) = Normal "3000".
Proof.
  assert (Htyped : CreateEnv.is_Fallback port_fallback = true) by reflexivity.
  assert (Hfirst : fst (CreateEnv0.getEnvValue (fun _ _ => "TypeError") port_fallback
                          JUndefined "PORT" empty_world) = Normal (JString "3000"))
    by reflexivity.
  split; [exact Htyped | split; [reflexivity | split; [reflexivity | split; [exact Hfirst |]]]].
  exact (proj2 (proj1 (X20_first_and_second_createEnv (fun _ _ => "TypeError")
                         port_fallback JUndefined "PORT" empty_world (or_intror Htyped)
                         eq_refl eq_refl)
                  "3000") Hfirst).
Defined.

(** X21. The logger of the first revision. With a mode-scoped policy, and
    a mode that names no member the policy inherits, it
    warns exactly when the policy has a truthy value under the key that
    [process.env.NODE_ENV] converts to; an unset mode is looked up under
    [undefined] and an empty one under the empty key, where the later
    [logger] stays silent.  For a policy with neither of these two keys, as
    every policy of the declared type, and for every other policy value,
    it does what the later [logger] does on [process.env]. *)
Theorem X21_first_logger (log : jsval) (message : string) (w : world) :
  let mode_key := to_string (mode_of ProcessEnv w) in
  (forall props, log = JObject props ->
     plain_mode ProcessEnv w = true ->
     CreateEnv0.logger log message w
     = (Normal tt,
        if js_in mode_key props && truthy (js_get props mode_key)
        then warned message w else w)) /\
  ((forall props, log = JObject props ->
      js_in "undefined" props = false /\ js_in "" props = false) ->
   CreateEnv0.logger log message w = logger log ProcessEnv message w).
Proof.
  intros mode_key. subst mode_key.
  assert (Hobj : forall props,
            CreateEnv0.logger (JObject props) message w
            = (Normal tt,
               if js_in (to_string (mode_of ProcessEnv w)) props
                  && truthy (js_get props (to_string (mode_of ProcessEnv w)))
               then warned message w else w)).
  { intros props. unfold CreateEnv0.logger. cbn [truthy negb typeof].
    rewrite (bool_decide_eq_false_2 ("object" = "boolean")) by discriminate.
    rewrite (bool_decide_eq_true_2 ("object" = "object")) by reflexivity.
    unfold bind, env_get, mode_of. cbn [deref js_has js_prop andb].
    destruct (js_in _ props && truthy _); reflexivity. }
  split; [intros props -> _; apply Hobj|].
  intros Hkeys. rewrite logger_run.
  destruct log as [| s | [] | z | fn | props]; try reflexivity.
  - unfold CreateEnv0.logger. cbn [truthy typeof]. destruct (negb (negb _)); reflexivity.
  - unfold CreateEnv0.logger. cbn [truthy typeof]. destruct (negb (negb _)); reflexivity.
  - rewrite Hobj. destruct (Hkeys props eq_refl) as [Hundef Hempty].
    unfold log_enabled, mode_of. cbn [deref].
    destruct (process_env w !! "NODE_ENV") as [mode|]; cbn [to_string truthy].
    + case_bool_decide; cbn [negb andb]; [|reflexivity].
      subst mode. rewrite Hempty. reflexivity.
    + rewrite Hundef. reflexivity.
Qed.

Lemma X21_first_logger_witness :
  (forall props, dev_log = JObject props ->
     js_in "undefined" props = false /\ js_in "" props = false) /\
  CreateEnv0.logger dev_log "warning" (mode_world "development")
  = logger dev_log ProcessEnv "warning" (mode_world "development").
Proof.
  assert (Hkeys : forall props, dev_log = JObject props ->
                    js_in "undefined" props = false /\ js_in "" props = false)
    by (intros props [= <-]; split; reflexivity).
  split; [exact Hkeys |].
  exact (proj2 (X21_first_logger dev_log "warning" (mode_world "development")) Hkeys).
Defined.
